(** * Eswatini-Events: ticket lifecycle, refunds and payment webhooks

    A shallow embedding of the backend's ticket model
    (backend/models/Ticket.js), the ticket routes (routes/ticketRoutes.js,
    both the session-based and the earlier plain version), the refund
    controller, the payment webhook controller
    (backend/controllers/paymentWebhooks.js) and its earlier version, the
    idempotency middleware and the error handler, followed by the
    properties of the ticket lifecycle that hold, or fail, on that code.

    Conventions of the embedding.
    - A MongoDB collection is a list of documents in natural order;
      [findOne]/[updateOne] act on the first document that matches.
    - A handler is a function from the store and the request to the
      response and the store left behind.  A handler that runs inside a
      session leaves the initial store when it aborts.
    - The clock ([Date.now()], [new Date()]) and the identifiers the driver
      generates are inputs of the request.
    - A ticket document carries the paths of the schema and [qrCode].
      A stored document may also hold [paymentStatus], [transactionId]
      and [paymentMethod], and a stored ticket type [sold], but neither
      schema declares them: Mongoose, in strict mode, drops them from
      the update operators of the payment webhooks and does not define
      them on the documents a query returns.
    - A string of the request that a query uses as an [_id] is cast to an
      ObjectId first; a string that does not cast makes the query throw
      a CastError. *)

From Stdlib Require Import String List ZArith NArith Bool Lia Ascii DecimalString.
Import ListNotations.
Open Scope string_scope.

(** ** Data model *)

Definition ObjectId := string.
(** Milliseconds since the epoch. *)
Definition Date := N.
Bind Scope N_scope with Date.

Inductive Tier := VIP | EarlyBird | General.

Definition tier_name (t : Tier) : string :=
  match t with
  | VIP => "VIP"
  | EarlyBird => "Early Bird"
  | General => "General"
  end.

(** [status] enum of the ticket schema; its default is ACTIVE. *)
Inductive TicketStatus := ACTIVE | REFUNDED | USED | TRANSFERRED.

Inductive RefundStatus := PENDING | COMPLETED | FAILED.

Record TransferEntry := mkTransfer {
  tr_from : ObjectId;
  tr_to : ObjectId;
  tr_date : Date
}.

Record ValidationEntry := mkValidation {
  va_timestamp : Date;
  va_validatedBy : ObjectId;
  va_location : string
}.

Record RefundEntry := mkRefund {
  rf_id : ObjectId;
  rf_idempotencyKey : string;
  rf_processedAt : Date;
  rf_processedBy : ObjectId;
  rf_amount : Z;
  rf_reason : string;
  rf_status : RefundStatus
}.

Record Ticket := mkTicket {
  t_id : ObjectId;
  t_event : ObjectId;
  t_owner : ObjectId;
  t_qrData : string;
  t_qrCode : string;
  t_isUsed : bool;
  t_price : Z;
  t_tier : Tier;
  t_transferHistory : list TransferEntry;
  t_validationHistory : list ValidationEntry;
  t_status : TicketStatus;
  t_refundHistory : list RefundEntry;
  t_paymentStatus : option string;
  t_transactionId : option string;
  t_paymentMethod : option string;
  t_updatedAt : Date
}.

Record TicketType := mkTicketType {
  tt_name : string;
  tt_price : Z;
  tt_capacity : Z;
  tt_sold : Z
}.

Record Event := mkEvent {
  e_id : ObjectId;
  e_name : string;
  e_date : Date;
  e_location : string;
  e_isActive : bool;
  e_ticketTypes : list TicketType;
  e_organizer : ObjectId
}.

Record User := mkUser {
  u_id : ObjectId;
  u_email : string;
  u_role : string
}.

Record Payment := mkPayment {
  p_transactionId : string;
  p_amount : Z;
  p_currency : string;
  p_paymentMethod : string;
  p_tickets : list ObjectId;
  p_customer_email : option string;
  p_customer_phone : option string;
  p_status : string
}.

(** The persistence layer: one list per collection. *)
Record Store := mkStore {
  tickets : list Ticket;
  events : list Event;
  users : list User;
  payments : list Payment
}.

(** The body of a payment webhook after JSON parsing; an absent property
    is [None]. *)
Record WebhookBody := mkBody {
  b_transactionId : option string;
  b_status : option string;
  b_ticketIds : option (list ObjectId);
  b_amount : option Z;
  b_currency : option string;
  b_paymentMethod : option string;
  b_customer_email : option string;
  b_customer_phone : option string
}.

(** What the process takes from its environment: the webhook secret, the
    HMAC-SHA256 hex digest (key first), [JSON.stringify] of a webhook
    body, the QR image encoder, the [$regex] test of the database
    (pattern first) and the test of the driver for the strings it accepts
    as an ObjectId (24 hexadecimal digits; some versions of the driver
    accept any 12 bytes as well). *)
Record Env := mkEnv {
  PAYMENT_WEBHOOK_SECRET : string;
  hmac_sha256_hex : string -> string -> string;
  JSON_stringify : WebhookBody -> string;
  QRCode_toDataURL : string -> string;
  regex_test : string -> string -> bool;
  ObjectId_isValid : string -> bool
}.

(** ** Errors and responses *)

(** [AppError message statusCode code], where [code] is the [code] entry of
    the details when the throw site gives one; [PlainError] is
    [new Error(message)]; the others are raised by the runtime, the
    driver and Mongoose: a [CastError] when the value given for [path]
    does not cast to the type of the path, a [ValidationError] when
    [save()] finds the listed paths (array indices left out) required
    and empty. *)
Inductive Error :=
| AppError (message : string) (statusCode : nat) (code : option string)
| PlainError (message : string)
| ReferenceError (message : string)
| TypeError (message : string)
| DuplicateKeyError (index : string)
| CastError (path : string)
| ValidationError (paths : list string).

(** errorHandler.js: [err.statusCode = err.statusCode || 500]. *)
Definition statusCode_of (e : Error) : nat :=
  match e with
  | AppError _ c _ => c
  | _ => 500
  end.

Inductive Payload :=
| RefundCompleted (amount : Z) (currency : string) (refundId : ObjectId)
    (processedAt : Date)
| RefundDeduplicated (refundStatus : RefundStatus) (originalRequestAt : Date)
| WebhookAck (timestamp : Date) (transactionId : string) (ticketCount : nat)
| TicketCreated (ticket : Ticket)
| BatchCreated (count : nat) (created : list Ticket)
| TransferDone (message : string) (newQRCode : string)
    (ticketId : option ObjectId)
| ValidateOk (eventId : ObjectId) (eventName : string) (eventDate : Date)
    (eventLocation : string) (attendeeEmail : string) (validatedAt : Date).

(** [Json s b] is [res.status(s).json(b)]; [Next e] is [next(e)], which the
    error handler answers with [statusCode_of e]; [NextRoute] is
    [next('route')]; [Unhandled e] is an exception that leaves the handler
    after the transaction was committed. *)
Inductive Response :=
| Json (status : nat) (body : Payload)
| Next (err : Error)
| NextRoute
| Unhandled (err : Error).

Definition response_status (r : Response) : option nat :=
  match r with
  | Json s _ => Some s
  | Next e => Some (statusCode_of e)
  | NextRoute => None
  | Unhandled _ => None
  end.

(** A computation that may throw. *)
Definition Result (A : Type) : Type := Error + A.

Definition ret {A} (a : A) : Result A := inr a.
Definition throw {A} (e : Error) : Result A := inl e.
Definition bind {A B} (m : Result A) (k : A -> Result B) : Result B :=
  match m with
  | inl e => inl e
  | inr a => k a
  end.

Notation "x <- m ;; k" := (bind m (fun x => k))
  (at level 61, m at next level, right associativity).
Notation "m ;;; k" := (bind m (fun _ => k))
  (at level 61, right associativity).

(** [if (c) throw e;] *)
Definition throw_if (c : bool) (e : Error) : Result unit :=
  if c then throw e else ret tt.

(** [try { work; commit } catch (err) { abort; next(err) }] *)
Definition run_session (st : Store) (work : Result (Response * Store))
  : Response * Store :=
  match work with
  | inr (r, st') => (r, st')
  | inl e => (Next e, st)
  end.

(** ** Documents and collections *)

Definition set_owner (v : ObjectId) (t : Ticket) : Ticket :=
  mkTicket (t_id t) (t_event t) v (t_qrData t) (t_qrCode t) (t_isUsed t)
    (t_price t) (t_tier t) (t_transferHistory t) (t_validationHistory t)
    (t_status t) (t_refundHistory t) (t_paymentStatus t) (t_transactionId t)
    (t_paymentMethod t) (t_updatedAt t).

Definition set_qrCode (v : string) (t : Ticket) : Ticket :=
  mkTicket (t_id t) (t_event t) (t_owner t) (t_qrData t) v (t_isUsed t)
    (t_price t) (t_tier t) (t_transferHistory t) (t_validationHistory t)
    (t_status t) (t_refundHistory t) (t_paymentStatus t) (t_transactionId t)
    (t_paymentMethod t) (t_updatedAt t).

Definition set_isUsed (v : bool) (t : Ticket) : Ticket :=
  mkTicket (t_id t) (t_event t) (t_owner t) (t_qrData t) (t_qrCode t) v
    (t_price t) (t_tier t) (t_transferHistory t) (t_validationHistory t)
    (t_status t) (t_refundHistory t) (t_paymentStatus t) (t_transactionId t)
    (t_paymentMethod t) (t_updatedAt t).

Definition set_transferHistory (v : list TransferEntry) (t : Ticket) : Ticket :=
  mkTicket (t_id t) (t_event t) (t_owner t) (t_qrData t) (t_qrCode t)
    (t_isUsed t) (t_price t) (t_tier t) v (t_validationHistory t)
    (t_status t) (t_refundHistory t) (t_paymentStatus t) (t_transactionId t)
    (t_paymentMethod t) (t_updatedAt t).

Definition set_validationHistory (v : list ValidationEntry) (t : Ticket)
  : Ticket :=
  mkTicket (t_id t) (t_event t) (t_owner t) (t_qrData t) (t_qrCode t)
    (t_isUsed t) (t_price t) (t_tier t) (t_transferHistory t) v
    (t_status t) (t_refundHistory t) (t_paymentStatus t) (t_transactionId t)
    (t_paymentMethod t) (t_updatedAt t).

Definition set_status (v : TicketStatus) (t : Ticket) : Ticket :=
  mkTicket (t_id t) (t_event t) (t_owner t) (t_qrData t) (t_qrCode t)
    (t_isUsed t) (t_price t) (t_tier t) (t_transferHistory t)
    (t_validationHistory t) v (t_refundHistory t) (t_paymentStatus t)
    (t_transactionId t) (t_paymentMethod t) (t_updatedAt t).

Definition set_refundHistory (v : list RefundEntry) (t : Ticket) : Ticket :=
  mkTicket (t_id t) (t_event t) (t_owner t) (t_qrData t) (t_qrCode t)
    (t_isUsed t) (t_price t) (t_tier t) (t_transferHistory t)
    (t_validationHistory t) (t_status t) v (t_paymentStatus t)
    (t_transactionId t) (t_paymentMethod t) (t_updatedAt t).

Definition set_updatedAt (v : Date) (t : Ticket) : Ticket :=
  mkTicket (t_id t) (t_event t) (t_owner t) (t_qrData t) (t_qrCode t)
    (t_isUsed t) (t_price t) (t_tier t) (t_transferHistory t)
    (t_validationHistory t) (t_status t) (t_refundHistory t)
    (t_paymentStatus t) (t_transactionId t) (t_paymentMethod t) v.

(** The schema declares [qrData] with [immutable: true]: on a document
    that was loaded from the store (not [isNew]) Mongoose ignores an
    assignment to the path, so [ticket.qrData = v] leaves it as it was. *)
Definition qrData_immutable : bool := true.

Definition assign_qrData (isNew : bool) (v : string) (t : Ticket) : Ticket :=
  if qrData_immutable && negb isNew then t
  else
    mkTicket (t_id t) (t_event t) (t_owner t) v (t_qrCode t) (t_isUsed t)
      (t_price t) (t_tier t) (t_transferHistory t) (t_validationHistory t)
      (t_status t) (t_refundHistory t) (t_paymentStatus t) (t_transactionId t)
      (t_paymentMethod t) (t_updatedAt t).

Definition with_tickets (ts : list Ticket) (st : Store) : Store :=
  mkStore ts (events st) (users st) (payments st).

Definition with_events (es : list Event) (st : Store) : Store :=
  mkStore (tickets st) es (users st) (payments st).

Definition with_payments (ps : list Payment) (st : Store) : Store :=
  mkStore (tickets st) (events st) (users st) ps.

(** Apply [f] to the first element that satisfies [p]. *)
Fixpoint update_first {A} (p : A -> bool) (f : A -> A) (l : list A) : list A :=
  match l with
  | [] => []
  | x :: l' => if p x then f x :: l' else x :: update_first p f l'
  end.

Definition has_id (id : ObjectId) (t : Ticket) : bool := t_id t =? id.

Definition mem_id (id : ObjectId) (ids : list ObjectId) : bool :=
  existsb (String.eqb id) ids.

(** [Ticket.findById(id)] *)
Definition Ticket_findById (st : Store) (id : ObjectId) : option Ticket :=
  find (has_id id) (tickets st).

(** [Ticket.find({ _id: { $in: ids } })]: every stored ticket whose id is
    listed, each once, in natural order. *)
Definition Ticket_find_in (st : Store) (ids : list ObjectId) : list Ticket :=
  filter (fun t => mem_id (t_id t) ids) (tickets st).

(** Whether Mongoose casts [id] to an ObjectId when a query uses it as an
    [_id].  The ids under which documents are stored are ObjectIds, so a
    string under which a ticket is stored casts; for any other string the
    test of the driver decides. *)
Definition casts (env : Env) (st : Store) (id : string) : bool :=
  mem_id id (map t_id (tickets st)) || ObjectId_isValid env id.

(** [Ticket.findById(id)] for a string of the request. *)
Definition Ticket_findById_cast (env : Env) (st : Store) (id : string)
  : Result (option Ticket) :=
  if casts env st id then ret (Ticket_findById st id)
  else throw (CastError "_id").

(** [Ticket.find({ _id: { $in: ids } })] for strings of the request. *)
Definition Ticket_find_cast (env : Env) (st : Store) (ids : list string)
  : Result (list Ticket) :=
  if forallb (casts env st) ids then ret (Ticket_find_in st ids)
  else throw (CastError "_id").

(** [Ticket.updateOne({ _id: id }, { $set: ... })] *)
Definition Ticket_updateOne (id : ObjectId) (f : Ticket -> Ticket) (st : Store)
  : Store :=
  with_tickets (update_first (has_id id) f (tickets st)) st.

(** [Ticket.updateMany({ _id: { $in: ids } }, { $set: ... })] *)
Definition Ticket_updateMany (ids : list ObjectId) (f : Ticket -> Ticket)
  (st : Store) : Store :=
  with_tickets
    (map (fun t => if mem_id (t_id t) ids then f t else t) (tickets st)) st.

(** [Ticket.updateMany] for strings of the request. *)
Definition Ticket_updateMany_cast (env : Env) (ids : list string)
  (f : Ticket -> Ticket) (st : Store) : Result Store :=
  if forallb (casts env st) ids then ret (Ticket_updateMany ids f st)
  else throw (CastError "_id").

(** [ticket.save()] of a loaded document; [timestamps: true] stamps
    [updatedAt]. *)
Definition Ticket_save (now : Date) (t : Ticket) (st : Store) : Store :=
  Ticket_updateOne (t_id t) (fun _ => set_updatedAt now t) st.

(** [ticket.save()] of a new document: the unique index [qrData_unique]
    refuses a scan token that is already stored. *)
Definition Ticket_insert (t : Ticket) (st : Store) : Result Store :=
  if existsb (fun t' => t_qrData t' =? t_qrData t) (tickets st)
  then throw (DuplicateKeyError "qrData_unique")
  else ret (with_tickets (tickets st ++ [t]) st).

Definition Event_findById (st : Store) (id : ObjectId) : option Event :=
  find (fun e => e_id e =? id) (events st).

Definition User_findById (st : Store) (id : ObjectId) : option User :=
  find (fun u => u_id u =? id) (users st).

(** [User.findOne({ email })] *)
Definition User_findByEmail (st : Store) (email : string) : option User :=
  find (fun u => u_email u =? email) (users st).

(** [try { work } catch (err) { next(err) }] of a handler without a
    session: a throw is handed to [next]; the handlers that use it throw
    only before their first write. *)
Definition run_try (st : Store) (work : Result (Response * Store))
  : Response * Store :=
  match work with
  | inr (r, st') => (r, st')
  | inl e => (Next e, st)
  end.

(** JavaScript truthiness of an optional string. *)
Definition truthy_str (o : option string) : bool :=
  match o with
  | Some s => negb (s =? EmptyString)
  | None => false
  end.

(** ** backend/models/Ticket.js: the methods of the schema *)
Module TicketModel.

(** [TicketSchema.methods.transferTicket] *)
Definition transferTicket (now : Date) (this : Ticket)
  (newOwnerId currentUserId : ObjectId) (st : Store)
  : Result (Ticket * Store) :=
  throw_if (negb (t_owner this =? currentUserId))
    (PlainError "You do not own this ticket") ;;;
  throw_if (t_isUsed this) (PlainError "Cannot transfer used ticket") ;;;
  let this :=
    set_transferHistory
      (t_transferHistory this ++ [mkTransfer (t_owner this) newOwnerId now])
      this in
  let this := set_owner newOwnerId this in
  let this := set_status TRANSFERRED this in
  ret (set_updatedAt now this, Ticket_save now this st).

(** The validation [save()] runs on a new refund entry: the schema
    declares [idempotencyKey] and [reason] as required strings, and a
    required string that is missing or empty fails (a missing one reads
    as the empty string here); the other required paths of the entry
    receive a date, the id of the authenticated user and the price. *)
Definition refund_entry_failures (idempotencyKey refundReason : string)
  : list string :=
  (if idempotencyKey =? EmptyString
   then ["refundHistory.idempotencyKey"] else []) ++
  (if refundReason =? EmptyString then ["refundHistory.reason"] else []).

(** [TicketSchema.methods.processRefund]; [fresh] is the [_id] the new
    history entry receives. *)
Definition processRefund (now : Date) (fresh : ObjectId) (this : Ticket)
  (refundReason : string) (processedBy : ObjectId) (idempotencyKey : string)
  (st : Store) : Result (Ticket * Store) :=
  throw_if (t_isUsed this) (PlainError "Cannot refund used ticket") ;;;
  throw_if (match t_status this with REFUNDED => true | _ => false end)
    (PlainError "Ticket already refunded") ;;;
  let this := set_status REFUNDED this in
  let this :=
    set_refundHistory
      (t_refundHistory this ++
         [mkRefund fresh idempotencyKey now processedBy (t_price this)
            refundReason COMPLETED])
      this in
  match refund_entry_failures idempotencyKey refundReason with
  | [] => ret (set_updatedAt now this, Ticket_save now this st)
  | paths => throw (ValidationError paths)
  end.

End TicketModel.

(** The earlier model (all files/Ticket.js) stored no status; it derived
    one with [TicketSchema.virtual('status')]. *)
Definition virtual_status (t : Ticket) : TicketStatus :=
  if t_isUsed t then USED else ACTIVE.

(** ** controllers/refundController.js *)
Module refundController.

Record Request := mkRequest {
  ticketId : ObjectId;        (* req.params.ticketId *)
  reason : string;            (* req.body.reason *)
  idempotencyKey : string;    (* req.idempotencyKey *)
  userId : ObjectId;          (* req.user.id *)
  now : Date;
  freshId : ObjectId
}.

Definition has_key (key : string) (r : RefundEntry) : bool :=
  rf_idempotencyKey r =? key.

(** [Ticket.findOne({ _id, 'refundHistory.idempotencyKey': key })] *)
Definition findExistingRefund (st : Store) (id : ObjectId) (key : string)
  : option Ticket :=
  find (fun t => has_id id t && existsb (has_key key) (t_refundHistory t))
    (tickets st).

(** [exports.processRefund] *)
Definition processRefund (st : Store) (req : Request) : Response * Store :=
  run_try st (
    match findExistingRefund st (ticketId req) (idempotencyKey req) with
    | Some existingRefund =>
        match find (has_key (idempotencyKey req))
                (t_refundHistory existingRefund) with
        | Some refund =>
            ret (Json 200
                   (RefundDeduplicated (rf_status refund)
                      (rf_processedAt refund)), st)
        | None => throw (TypeError "Cannot read properties of undefined")
        end
    | None =>
        ticket <- match Ticket_findById st (ticketId req) with
                  | Some t => ret t
                  | None => throw (AppError "Ticket not found" 404 None)
                  end ;;
        throw_if (negb (t_owner ticket =? userId req))
          (AppError "You do not own this ticket" 403 None) ;;;
        saved <- TicketModel.processRefund (now req) (freshId req) ticket
                   (reason req) (userId req) (idempotencyKey req) st ;;
        let (ticket', st') := saved in
        match find (has_key (idempotencyKey req))
                (t_refundHistory ticket') with
        | Some newRefund =>
            ret (Json 200
                   (RefundCompleted (t_price ticket') "SZL"
                      (rf_id newRefund) (rf_processedAt newRefund)), st')
        | None =>
            ret (Next (TypeError "Cannot read properties of undefined"),
                 st')
        end
    end).

End refundController.

(** ** controllers/paymentWebhooks.js *)
Module paymentWebhooks.

Record Request := mkRequest {
  idempotency_key : option string;     (* headers['idempotency-key'] *)
  x_payment_signature : option string; (* headers['x-payment-signature'] *)
  body : WebhookBody;
  now : Date
}.

Definition expectedSignature (env : Env) (req : Request) : string :=
  hmac_sha256_hex env (PAYMENT_WEBHOOK_SECRET env)
    (JSON_stringify env (body req)).

(** [!signature || signature !== expectedSignature] *)
Definition signature_rejected (env : Env) (req : Request) : bool :=
  negb (truthy_str (x_payment_signature req)) ||
  match x_payment_signature req with
  | Some s => negb (s =? expectedSignature env req)
  | None => true
  end.

(** The [$set] of the success branch names [paymentStatus],
    [transactionId], [paymentMethod] and [updatedAt].  Mongoose casts an
    update against the schema and, in strict mode, drops the paths the
    schema does not declare: of the four only [updatedAt], which
    [timestamps: true] declares, is a path of the ticket schema. *)
Definition confirm (transactionId paymentMethod : string) (now : Date)
  (t : Ticket) : Ticket :=
  set_updatedAt now t.

(** The [$set] of the failed branch names [paymentStatus],
    [transactionId] and [updatedAt]; [updatedAt] is what remains. *)
Definition fail (transactionId : string) (now : Date) (t : Ticket)
  : Ticket :=
  set_updatedAt now t.

(** [t.transactionId] on a document that [Ticket.find] returned: the
    schema declares no such path, so the document has no such property,
    whatever the stored document holds, and the read gives [undefined]. *)
Definition read_transactionId (t : Ticket) : option string := None.

(** [new Payment({ ... })].  The controller requires AppError, crypto,
    Ticket, Event, User, the logger and mongoose and declares nothing
    else: [Payment] is not bound, and evaluating the expression raises a
    ReferenceError. *)
Definition new_Payment (record : Payment) : Result Payment :=
  throw (ReferenceError "Payment is not defined").

(** [{ $inc: { 'ticketTypes.$[elem].sold': 1 } }] under the array filter
    [{ 'elem.name': { $in: names } }].  The ticket types of the event
    schema declare [name], [price], [capacity] and [available]: [sold] is
    not a path, the cast drops the increment, and the ticket type stays
    as it is. *)
Definition inc_sold (names : list string) (tt : TicketType) : TicketType :=
  tt.

Definition inc_event (names : list string) (e : Event) : Event :=
  mkEvent (e_id e) (e_name e) (e_date e) (e_location e) (e_isActive e)
    (map (inc_sold names) (e_ticketTypes e)) (e_organizer e).

(** [Event.updateOne({ _id: eventId }, { $inc ... }, { arrayFilters })] *)
Definition Event_updateOne_sold (eventId : ObjectId) (names : list string)
  (st : Store) : Store :=
  with_events
    (update_first (fun e => e_id e =? eventId) (inc_event names) (events st))
    st.

(** The six required properties, when none of them is falsy. *)
Definition required_fields (b : WebhookBody)
  : option (string * string * list ObjectId * Z * string * string) :=
  match b_transactionId b, b_status b, b_ticketIds b, b_amount b,
        b_currency b, b_paymentMethod b with
  | Some transactionId, Some status, Some ticketIds, Some amount,
    Some currency, Some paymentMethod =>
      if negb (transactionId =? EmptyString) && negb (status =? EmptyString) &&
         negb (Nat.eqb (length ticketIds) 0) && negb (amount =? 0)%Z &&
         negb (currency =? EmptyString) && negb (paymentMethod =? EmptyString)
      then Some (transactionId, status, ticketIds, amount, currency,
                 paymentMethod)
      else None
  | _, _, _, _, _, _ => None
  end.

Definition acknowledgement (req : Request) (transactionId : string)
  (ticketIds : list ObjectId) : Response :=
  Json 200 (WebhookAck (now req) transactionId (length ticketIds)).

(** The success branch, inside the session: the updates it makes before
    it throws are rolled back when the handler aborts. *)
Definition process_success (env : Env) (st : Store) (req : Request)
  (transactionId : string) (ticketIds : list ObjectId) (amount : Z)
  (currency paymentMethod : string) : Result (Response * Store) :=
  found <- Ticket_find_cast env st ticketIds ;;
  throw_if (negb (Nat.eqb (length found) (length ticketIds)))
    (AppError "Some tickets not found" 404 (Some "TICKETS_NOT_FOUND")) ;;;
  throw_if (existsb (fun t => truthy_str (read_transactionId t)) found)
    (AppError "Some tickets already processed" 409
       (Some "DUPLICATE_TRANSACTION")) ;;;
  let expectedAmount := fold_left (fun sum t => sum + t_price t)%Z found 0%Z in
  throw_if (negb (amount =? expectedAmount)%Z)
    (AppError "Payment amount mismatch" 400 (Some "AMOUNT_MISMATCH")) ;;;
  eventId <- match found with
             | t0 :: _ => ret (t_event t0)
             | [] => throw (TypeError "Cannot read properties of undefined")
             end ;;
  let st1 :=
    fold_left
      (fun s t =>
         Ticket_updateOne (t_id t) (confirm transactionId paymentMethod (now req)) s)
      found st in
  let st2 :=
    Event_updateOne_sold eventId (map (fun t => tier_name (t_tier t)) found)
      st1 in
  paymentRecord <-
    new_Payment
      (mkPayment transactionId amount currency paymentMethod ticketIds
         (b_customer_email (body req)) (b_customer_phone (body req))
         "completed") ;;
  let st3 := with_payments (payments st2 ++ [paymentRecord]) st2 in
  ret (acknowledgement req transactionId ticketIds, st3).

(** [exports.handlePaymentWebhook] *)
Definition handlePaymentWebhook (env : Env) (st : Store) (req : Request)
  : Response * Store :=
  run_session st (
    throw_if (negb (truthy_str (idempotency_key req)))
      (AppError "Idempotency key required" 400
         (Some "MISSING_IDEMPOTENCY_KEY")) ;;;
    throw_if (signature_rejected env req)
      (AppError "Invalid webhook signature" 401 (Some "INVALID_SIGNATURE")) ;;;
    match required_fields (body req) with
    | None =>
        throw (AppError "Missing required fields in webhook payload" 400
                 (Some "MISSING_REQUIRED_FIELDS"))
    | Some (transactionId, status, ticketIds, amount, currency,
            paymentMethod) =>
        if status =? "success" then
          process_success env st req transactionId ticketIds amount currency
            paymentMethod
        else if status =? "failed" then
          st' <- Ticket_updateMany_cast env ticketIds
                   (fail transactionId (now req)) st ;;
          ret (acknowledgement req transactionId ticketIds, st')
        else
          ret (acknowledgement req transactionId ticketIds, st)
    end).

End paymentWebhooks.

(** ** routes/ticketRoutes.js *)
Module ticketRoutes.

(** Decimal rendering of a number inside a template string. *)
Definition show (n : N) : string := NilZero.string_of_uint (N.to_uint n).

(** [`ESWATICKET:${eventId}:${ownerId}:${Date.now()}`] *)
Definition scan_token (eventId ownerId : ObjectId) (now : Date) : string :=
  "ESWATICKET:" ++ eventId ++ ":" ++ ownerId ++ ":" ++ show now.

(** [{ VIP: 500, 'Early Bird': 300, General: 200 }[tier]] *)
Definition price_of (tier : Tier) : Z :=
  match tier with
  | VIP => 500
  | EarlyBird => 300
  | General => 200
  end.

(** [createSingleTicket]; [tier] is [None] when the caller passes
    [undefined].  The price table then gives [undefined] as well.  A new
    document takes the defaults of the schema for the paths that are not
    given, so the tier becomes General, and [save()] validates the
    document before it inserts it: [price] is required. *)
Definition createSingleTicket (env : Env) (now : Date) (fresh : ObjectId)
  (eventId userId : ObjectId) (tier : option Tier) (st : Store)
  : Result (Ticket * Store) :=
  let price := option_map price_of tier in
  let qrData := scan_token eventId userId now in
  let qrCode := QRCode_toDataURL env qrData in
  let tier := match tier with Some tier => tier | None => General end in
  price <- match price with
           | Some price => ret price
           | None => throw (ValidationError ["price"])
           end ;;
  let ticket :=
    mkTicket fresh eventId userId qrData qrCode false price tier
      [mkTransfer userId userId now] [] ACTIVE [] None None None now in
  st' <- Ticket_insert ticket st ;;
  ret (ticket, st').

(** The body of a purchase as the handler receives it.  The validation
    middleware checks the body against the Joi schema but keeps the body
    as it was sent, so the defaults of the schema are not applied: a
    tier that was left out is [None], and a quantity that was left out
    is 0 here: the handler tests the quantity only with [quantity > 1],
    which is false for [undefined] as it is for 0 and 1. *)
Record PurchaseRequest := mkPurchase {
  pu_userId : ObjectId;
  pu_eventId : ObjectId;
  pu_tier : option Tier;
  pu_quantity : nat;
  pu_now : Date;
  pu_freshId : ObjectId
}.

(** [POST /purchase] *)
Definition purchase (env : Env) (st : Store) (req : PurchaseRequest)
  : Response * Store :=
  run_try st (
    if Nat.ltb 1 (pu_quantity req) then ret (NextRoute, st)
    else
      event <- match Event_findById st (pu_eventId req) with
               | Some e => ret e
               | None => throw (AppError "Event not found" 404 None)
               end ;;
      created <- createSingleTicket env (pu_now req) (pu_freshId req)
                   (e_id event) (pu_userId req) (pu_tier req) st ;;
      let (ticket, st') := created in
      ret (Json 201 (TicketCreated ticket), st')).

Record BatchRequest := mkBatch {
  ba_userId : ObjectId;
  ba_eventId : ObjectId;
  ba_tickets : list (Tier * nat);    (* { tier, quantity }; a quantity
                                        that was left out is 0: the loop
                                        test [i < undefined] is false *)
  ba_clock : nat -> Date;            (* the clock at the k-th creation *)
  ba_freshId : nat -> ObjectId
}.

(** The two nested loops, unrolled: one tier per ticket to create. *)
Definition batch_tiers (items : list (Tier * nat)) : list Tier :=
  flat_map (fun item => repeat (fst item) (snd item)) items.

Fixpoint create_all (env : Env) (req : BatchRequest) (eventId : ObjectId)
  (tiers : list Tier) (k : nat) (st : Store) : Result (list Ticket * Store) :=
  match tiers with
  | [] => ret ([], st)
  | tier :: rest =>
      created <- createSingleTicket env (ba_clock req k) (ba_freshId req k)
                   eventId (ba_userId req) (Some tier) st ;;
      let (ticket, st1) := created in
      more <- create_all env req eventId rest (S k) st1 ;;
      let (createdTickets, st2) := more in
      ret (ticket :: createdTickets, st2)
  end.

(** [POST /batch-purchase] *)
Definition batch_purchase (env : Env) (st : Store) (req : BatchRequest)
  : Response * Store :=
  run_session st (
    event <- match Event_findById st (ba_eventId req) with
             | Some e => ret e
             | None => throw (AppError "Event not found" 404 None)
             end ;;
    done <- create_all env req (e_id event) (batch_tiers (ba_tickets req))
              0 st ;;
    let (createdTickets, st') := done in
    ret (Json 201 (BatchCreated (length createdTickets) createdTickets),
         st')).

Record TransferRequest := mkTransferReq {
  tf_ticketId : ObjectId;    (* req.params.ticketId *)
  tf_userId : ObjectId;      (* req.user.id *)
  tf_email : string;         (* req.body.email *)
  tf_now : Date
}.

(** [validateTicketOwnership] of the session-based routes.  Its third
    statement reads [req.isGodMode], but [req] is neither a parameter of
    the helper nor a binding of the module: evaluating it raises a
    ReferenceError, and the ownership test after it is never reached. *)
Definition validateTicketOwnership (ticket : option Ticket)
  (userId : ObjectId) : Result unit :=
  match ticket with
  | None => throw (AppError "Ticket not found" 404 None)
  | Some t =>
      isGodMode <- throw (ReferenceError "req is not defined") ;;
      if (isGodMode : bool) then ret tt
      else throw_if (negb (t_owner t =? userId))
             (AppError "You do not own this ticket" 403 None)
  end.

(** [validateTicketOwnership] of the earlier routes, which has no such
    statement. *)
Definition validateTicketOwnership_plain (ticket : option Ticket)
  (userId : ObjectId) : Result unit :=
  match ticket with
  | None => throw (AppError "Ticket not found" 404 None)
  | Some t =>
      throw_if (negb (t_owner t =? userId))
        (AppError "You do not own this ticket" 403 None)
  end.

(** The statements both transfer handlers run once the ticket and the
    recipient are loaded; the result is the document as it is saved and
    the QR image of the new token. *)
Definition reassign (env : Env) (req : TransferRequest) (ticket : Ticket)
  (recipient : User) : Ticket * string :=
  let qrData := scan_token (t_event ticket) (u_id recipient) (tf_now req) in
  let qrCode := QRCode_toDataURL env qrData in
  let ticket :=
    set_transferHistory
      (t_transferHistory ticket ++
         [mkTransfer (tf_userId req) (u_id recipient) (tf_now req)])
      ticket in
  let ticket := set_owner (u_id recipient) ticket in
  let ticket := assign_qrData false qrData ticket in
  let ticket := set_qrCode qrCode ticket in
  (ticket, qrCode).

Definition transfer_with
  (check : option Ticket -> ObjectId -> Result unit) (with_id : bool)
  (env : Env) (st : Store) (req : TransferRequest)
  : Result (Response * Store) :=
  ticket <- Ticket_findById_cast env st (tf_ticketId req) ;;
  check ticket (tf_userId req) ;;;
  match ticket, User_findByEmail st (tf_email req) with
  | Some ticket, Some recipient =>
      let (ticket, qrCode) := reassign env req ticket recipient in
      ret (Json 200
             (TransferDone ("Ticket transferred to " ++ u_email recipient)
                qrCode (if with_id then Some (t_id ticket) else None)),
           Ticket_save (tf_now req) ticket st)
  | Some _, None => throw (AppError "Recipient not found" 404 None)
  | None, _ => throw (TypeError "Cannot read properties of null")
  end.

(** [POST /transfer/:ticketId] of the session-based routes. *)
Definition transfer (env : Env) (st : Store) (req : TransferRequest)
  : Response * Store :=
  run_session st (transfer_with validateTicketOwnership true env st req).

(** [POST /transfer/:ticketId] of the earlier routes. *)
Definition transfer_plain (env : Env) (st : Store) (req : TransferRequest)
  : Response * Store :=
  run_try st (
    throw_if (tf_email req =? EmptyString)
      (AppError "Recipient email is required" 400 None) ;;;
    transfer_with validateTicketOwnership_plain false env st req).

(** *** Reading the scanned text *)

Definition marker : string := "ESWATICKET:".

(** [s.includes(sub)] *)
Definition includes (sub s : string) : bool :=
  match index 0 sub s with
  | Some _ => true
  | None => false
  end.

Definition drop (n : nat) (s : string) : string :=
  substring n (String.length s - n) s.

(** [s.split(sep)[1]]: the piece between the first and the second
    occurrence of [sep]; [None] is [undefined]. *)
Definition split_1 (sep s : string) : option string :=
  match index 0 sep s with
  | None => None
  | Some i =>
      let rest := drop (i + String.length sep) s in
      match index 0 sep rest with
      | None => Some rest
      | Some j => Some (substring 0 j rest)
      end
  end.

Definition quote : ascii := ascii_of_nat 34.

(** The longest prefix without a double quote. *)
Fixpoint take_unquoted (s : string) : string :=
  match s with
  | EmptyString => EmptyString
  | String c s' =>
      if Ascii.eqb c quote then EmptyString else String c (take_unquoted s')
  end.

(** The regular expression of the handler, the marker followed by one or
    more characters other than a double quote, anchored at the start. *)
Definition match_here (s : string) : option string :=
  if prefix marker s then
    let run := take_unquoted (drop (String.length marker) s) in
    if run =? EmptyString then None else Some (marker ++ run)
  else None.

(** [s.match(...)] with that expression: the leftmost match. *)
Fixpoint match_marker (s : string) : option string :=
  match match_here s with
  | Some m => Some m
  | None =>
      match s with
      | EmptyString => None
      | String _ s' => match_marker s'
      end
  end.

Definition qrPayload_of (qrData : string) : Result string :=
  if includes "ESWATICKET" qrData then
    match split_1 marker qrData with
    | Some piece =>
        if piece =? EmptyString then ret qrData else ret (marker ++ piece)
    | None => ret qrData
    end
  else
    match match_marker qrData with
    | Some m => ret m
    | None => throw (AppError "Invalid QR code format" 400 None)
    end.

(** [Ticket.findOne({ $or: [{ qrData }, { qrCode: { $regex } }] })] *)
Definition Ticket_findByScan (env : Env) (st : Store) (qrPayload : string)
  : option Ticket :=
  find (fun t => (t_qrData t =? qrPayload) ||
                 regex_test env qrPayload (t_qrCode t))
    (tickets st).

Record ValidateRequest := mkValidate {
  vl_userId : ObjectId;          (* req.user.id, the validator *)
  vl_qrData : string;            (* req.body.qrData *)
  vl_location : option string;   (* req.body.location *)
  vl_now : Date
}.

(** [req.body.location || 'Unknown'] *)
Definition location_of (req : ValidateRequest) : string :=
  match vl_location req with
  | Some l => if l =? EmptyString then "Unknown" else l
  | None => "Unknown"
  end.

(** The checks of [POST /validate] up to the first write. *)
Definition validate_checks (env : Env) (st : Store) (req : ValidateRequest)
  : Result Ticket :=
  qrPayload <- qrPayload_of (vl_qrData req) ;;
  ticket <- match Ticket_findByScan env st qrPayload with
            | Some t => ret t
            | None => throw (AppError "Ticket not found" 404 None)
            end ;;
  throw_if (t_isUsed ticket) (AppError "Ticket already used" 400 None) ;;;
  ret ticket.

(** The writes of [POST /validate]. *)
Definition mark_used (req : ValidateRequest) (ticket : Ticket) : Ticket :=
  let ticket := set_isUsed true ticket in
  set_validationHistory
    (t_validationHistory ticket ++
       [mkValidation (vl_now req) (vl_userId req) (location_of req)])
    ticket.

(** [POST /validate].  The ticket is saved and the transaction committed
    before the handler reads the populated [event] and [owner]; when
    one of them is missing, that read throws after the commit. *)
Definition validate (env : Env) (st : Store) (req : ValidateRequest)
  : Response * Store :=
  match validate_checks env st req with
  | inl e => (Next e, st)
  | inr ticket =>
      let ticket := mark_used req ticket in
      let st' := Ticket_save (vl_now req) ticket st in
      match Event_findById st (t_event ticket),
            User_findById st (t_owner ticket) with
      | Some event, Some owner =>
          (Json 200
             (ValidateOk (e_id event) (e_name event) (e_date event)
                (e_location event) (u_email owner) (vl_now req)), st')
      | _, _ =>
          (Unhandled (TypeError "Cannot read properties of null"), st')
      end
  end.

End ticketRoutes.

(** ** A concrete deployment, for the examples *)
Module Sample.
Import ticketRoutes.

Definition render (b : WebhookBody) : string :=
  let str o := match o with Some s => s | None => "null" end in
  str (b_transactionId b) ++ "|" ++ str (b_status b) ++ "|" ++
  String.concat "," (match b_ticketIds b with Some l => l | None => [] end) ++ "|" ++
  str (b_currency b) ++ "|" ++ str (b_paymentMethod b).

Definition is_hex (c : ascii) : bool :=
  let n := nat_of_ascii c in
  (Nat.leb 48 n && Nat.leb n 57) || (Nat.leb 97 n && Nat.leb n 102) ||
  (Nat.leb 65 n && Nat.leb n 70).

(** 24 hexadecimal digits. *)
Definition hex24 (s : string) : bool :=
  Nat.eqb (String.length s) 24 && forallb is_hex (list_ascii_of_string s).

Definition env : Env :=
  mkEnv "whsec_test"
    (fun key msg => "hmac:" ++ key ++ ":" ++ msg)
    render
    (fun _ => "data:image/png;base64,iVBORw0KGgo")
    (fun pattern s => includes pattern s)
    hex24.

Definition alice : User := mkUser "u1" "alice@example.com" "attendee".
Definition bob : User := mkUser "u2" "bob@example.com" "attendee".
Definition gate : User := mkUser "u3" "gate@example.com" "staff".

(** The General tier is sold out. *)
Definition concert : Event :=
  mkEvent "e1" "MTN Bushfire" 1900000000000 "Malkerns" true
    [mkTicketType "General" 200 1 1; mkTicketType "VIP" 500 10 0] "u9".

Definition token1 : string := scan_token "e1" "u1" 1000.

(** An unpaid General ticket of alice. *)
Definition t1 : Ticket :=
  mkTicket "t1" "e1" "u1" token1 (QRCode_toDataURL env token1) false 200
    General [mkTransfer "u1" "u1" 1000] [] ACTIVE [] None None None 1000.

(** A ticket of alice that was refunded under the key k1. *)
Definition t2 : Ticket :=
  mkTicket "t2" "e1" "u1" (scan_token "e1" "u1" 2000)
    (QRCode_toDataURL env (scan_token "e1" "u1" 2000)) false 200 General
    [mkTransfer "u1" "u1" 2000] [] REFUNDED
    [mkRefund "r1" "k1" 2500 "u1" 200 "rain" COMPLETED] None None None 2500.

(** A ticket of alice that was scanned at the gate; its stored document
    holds payment fields. *)
Definition t3 : Ticket :=
  mkTicket "t3" "e1" "u1" (scan_token "e1" "u1" 3000)
    (QRCode_toDataURL env (scan_token "e1" "u1" 3000)) true 500 VIP
    [mkTransfer "u1" "u1" 3000] [mkValidation 3500 "u3" "Main gate"] ACTIVE
    [] (Some "confirmed") (Some "txn_000") (Some "momo") 3500.

(** An unpaid VIP ticket of bob. *)
Definition t4 : Ticket :=
  mkTicket "t4" "e1" "u2" (scan_token "e1" "u2" 4000)
    (QRCode_toDataURL env (scan_token "e1" "u2" 4000)) false 500 VIP
    [mkTransfer "u2" "u2" 4000] [] ACTIVE [] None None None 4000.

Definition store : Store :=
  mkStore [t1; t2; t3; t4] [concert] [alice; bob; gate] [].

Definition body_of (txn status : string) (ids : list ObjectId) (amount : Z)
  : WebhookBody :=
  mkBody (Some txn) (Some status) (Some ids) (Some amount) (Some "SZL")
    (Some "momo") (Some "alice@example.com") None.

(** A correctly signed delivery. *)
Definition signed (key : option string) (b : WebhookBody) (now : Date)
  : paymentWebhooks.Request :=
  paymentWebhooks.mkRequest key
    (Some (hmac_sha256_hex env (PAYMENT_WEBHOOK_SECRET env)
             (JSON_stringify env b)))
    b now.

(** Payment of t1 reported as successful. *)
Definition pay_t1 : paymentWebhooks.Request :=
  signed (Some "idem-1") (body_of "txn_123" "success" ["t1"] 200) 5000.

(** Payment of t4 reported as successful. *)
Definition pay_t4 : paymentWebhooks.Request :=
  signed (Some "idem-4") (body_of "txn_456" "success" ["t4"] 500) 5000.


(** An ObjectId under which no ticket is stored. *)
Definition unknown_id : ObjectId := "507f1f77bcf86cd799439011".


(** Deliveries with a forged signature, with and without the key. *)
Definition forged : paymentWebhooks.Request :=
  paymentWebhooks.mkRequest (Some "idem-1") (Some "forged")
    (body_of "txn_123" "success" ["t1"] 200) 5000.

Definition forged_without_key : paymentWebhooks.Request :=
  paymentWebhooks.mkRequest None (Some "forged")
    (body_of "txn_123" "success" ["t1"] 200) 5000.

(** alice asks for the refund of t1 under the key k7. *)
Definition refund_t1 : refundController.Request :=
  refundController.mkRequest "t1" "rain" "k7" "u1" 9000 "r9".

(** bob repeats it later. *)
Definition refund_t1_by_bob : refundController.Request :=
  refundController.mkRequest "t1" "rain" "k7" "u2" 9500 "r10".

(** bob presents the key of alice's refund of t2. *)
Definition refund_t2_by_bob : refundController.Request :=
  refundController.mkRequest "t2" "rain" "k1" "u2" 9000 "r9".

(** alice asks again for the refund of t2, under a new key. *)
Definition refund_t2_again : refundController.Request :=
  refundController.mkRequest "t2" "rain" "k2" "u1" 9000 "r9".

(** The gate scans t1, t2 and t3. *)
Definition scan_t1 : ValidateRequest :=
  mkValidate "u3" token1 (Some "Gate B") 9000.

Definition scan_t2 : ValidateRequest :=
  mkValidate "u3" (t_qrData t2) (Some "Gate B") 9000.

Definition scan_t3 : ValidateRequest :=
  mkValidate "u3" (t_qrData t3) None 9000.

(** alice transfers t1 to bob. *)
Definition give_t1 : TransferRequest :=
  mkTransferReq "t1" "u1" "bob@example.com" 7000.

(** bob buys a General ticket although the tier is sold out. *)
Definition buy_general : PurchaseRequest :=
  mkPurchase "u2" "e1" (Some General) 1 8000 "t9".

End Sample.

(** ** Predicates used in the statements *)

(** No ticket type has sold more than its capacity. *)
Definition within_capacity (st : Store) : Prop :=
  forall e tt, In e (events st) -> In tt (e_ticketTypes e) ->
    (tt_sold tt <= tt_capacity tt)%Z.

(** The store with other ticket types: [f] gives every event the ticket
    types (names, prices, capacities, sold counters) it is to have. *)
Definition retype (f : Event -> list TicketType) (e : Event) : Event :=
  mkEvent (e_id e) (e_name e) (e_date e) (e_location e) (e_isActive e) (f e)
    (e_organizer e).

Definition retyped (f : Event -> list TicketType) (st : Store) : Store :=
  with_events (map (retype f) (events st)) st.

(** The tickets of a tier of an event that are stored. *)
Definition issued (st : Store) (eventId : ObjectId) (tier : Tier)
  : list Ticket :=
  filter (fun t => (t_event t =? eventId) &&
                   (tier_name (t_tier t) =? tier_name tier)) (tickets st).

(** Refund requests served one after the other. *)
Fixpoint serve_refunds (st : Store) (reqs : list refundController.Request)
  : list Response * Store :=
  match reqs with
  | [] => ([], st)
  | req :: reqs' =>
      let (r, st1) := refundController.processRefund st req in
      let (rs, st2) := serve_refunds st1 reqs' in
      (r :: rs, st2)
  end.

(** ** middleware/errorHandler.js *)
Module errorHandler.

(** What the client receives for an error: the HTTP status and, of the
    body, [status], [message] and the [code] entry of [details]; the
    request and reference ids of the body are left out. *)
Record Reply := mkReply {
  statusCode : nat;
  status : string;
  message : string;
  code : option string
}.

(** The [status] an [AppError] gives itself: [fail] when the decimal
    rendering of the status code starts with 4, [error] otherwise. *)
Definition AppError_status (statusCode : nat) : string :=
  if prefix "4" (NilZero.string_of_uint (Nat.to_uint statusCode))
  then "fail" else "error".

Definition generic_message : string :=
  "An unexpected error occurred. Our team has been notified.".

(** The exported handler when [NODE_ENV] is not [development]: a status
    code that is missing or 0 becomes 500, and [sendErrorProd] answers an
    operational error, which every [AppError] of these routes is, with its
    own code and message and anything else with 500 and a fixed text. *)
Definition production (e : Error) : Reply :=
  match e with
  | AppError m c details =>
      mkReply (if Nat.eqb c 0 then 500 else c) (AppError_status c) m details
  | _ => mkReply 500 "error" generic_message None
  end.

End errorHandler.

(** ** middleware/idempotency.js *)
Module idempotency.

(** The middleware that insists on the header. *)
Definition required (header : option string) : Result string :=
  match header with
  | Some key =>
      if key =? EmptyString
      then throw (AppError "Idempotency-Key header required" 400 None)
      else ret key
  | None => throw (AppError "Idempotency-Key header required" 400 None)
  end.

(** The middleware that falls back on a generated key:
    [req.headers['idempotency-key'] || uuidv4()]. *)
Definition generated (header : option string) (uuid : string) : string :=
  match header with
  | Some key => if key =? EmptyString then uuid else key
  | None => uuid
  end.

(** A refund request as it reaches the router, before the middleware. *)
Record RefundCall := mkRefundCall {
  header : option string;     (* req.headers['idempotency-key'] *)
  params_ticketId : ObjectId;
  body_reason : string;
  user_id : ObjectId;
  clock : Date;
  freshId : ObjectId;
  uuid : string               (* what uuidv4() would return *)
}.

Definition to_request (c : RefundCall) (key : string)
  : refundController.Request :=
  refundController.mkRequest (params_ticketId c) (body_reason c) key
    (user_id c) (clock c) (freshId c).

(** [POST /:ticketId/refund] behind the first middleware; its throw goes
    to the error handler. *)
Definition refund_route_required (st : Store) (c : RefundCall)
  : Response * Store :=
  match required (header c) with
  | inl e => (Next e, st)
  | inr key => refundController.processRefund st (to_request c key)
  end.

(** [POST /:ticketId/refund] behind the second middleware. *)
Definition refund_route_generated (st : Store) (c : RefundCall)
  : Response * Store :=
  refundController.processRefund st
    (to_request c (generated (header c) (uuid c))).

End idempotency.

(** ** The earlier controllers/paymentWebhooks.js *)
Module earlierWebhooks.

(** How a delivery ends: with the acknowledgement, with an error handed to
    [next] inside the [try], or with an error thrown before the [try], on
    which the promise of the handler rejects and the handler calls neither
    [res] nor [next]. *)
Inductive Outcome :=
| Acknowledged (timestamp : Date)
| Passed (err : Error)
| Rejected (err : Error).

(** [!signature || signature !== process.env.PAYMENT_WEBHOOK_SECRET] *)
Definition signature_rejected (env : Env) (req : paymentWebhooks.Request)
  : bool :=
  negb (truthy_str (paymentWebhooks.x_payment_signature req)) ||
  match paymentWebhooks.x_payment_signature req with
  | Some s => negb (s =? PAYMENT_WEBHOOK_SECRET env)
  | None => true
  end.

(** The [$set] of the success branch names [paymentStatus],
    [transactionId] and [updatedAt]; neither ticket schema declares the
    first two, and the cast of the update drops them. *)
Definition confirm (transactionId : string) (now : Date) (t : Ticket)
  : Ticket :=
  set_updatedAt now t.

(** The three required properties, when none of them is falsy. *)
Definition required_fields (b : WebhookBody)
  : option (string * string * list ObjectId) :=
  match b_transactionId b, b_status b, b_ticketIds b with
  | Some transactionId, Some status, Some ticketIds =>
      if negb (transactionId =? EmptyString) && negb (status =? EmptyString) &&
         negb (Nat.eqb (length ticketIds) 0)
      then Some (transactionId, status, ticketIds)
      else None
  | _, _, _ => None
  end.

(** [exports.handlePaymentWebhook]: the key is tested before the [try];
    there is no session, and the only write is the [updateMany] of the
    success branch. *)
Definition handlePaymentWebhook (env : Env) (st : Store)
  (req : paymentWebhooks.Request) : Outcome * Store :=
  if negb (truthy_str (paymentWebhooks.idempotency_key req))
  then (Rejected (AppError "Idempotency key required" 400 None), st)
  else if signature_rejected env req
  then (Passed (AppError "Invalid webhook signature" 401 None), st)
  else
    match required_fields (paymentWebhooks.body req) with
    | None =>
        (Passed
           (AppError
              "Missing required fields: transactionId, status, or ticketIds"
              400 None), st)
    | Some (transactionId, status, ticketIds) =>
        if status =? "success"
        then
          match Ticket_updateMany_cast env ticketIds
                  (confirm transactionId (paymentWebhooks.now req)) st with
          | inr st' => (Acknowledged (paymentWebhooks.now req), st')
          | inl err => (Passed err, st)
          end
        else (Acknowledged (paymentWebhooks.now req), st)
    end.

End earlierWebhooks.

(** ** The ticket router as a whole *)

(** A request to one of the routes that write. *)
Inductive Call :=
| Purchase (req : ticketRoutes.PurchaseRequest)
| BatchPurchase (req : ticketRoutes.BatchRequest)
| Transfer (req : ticketRoutes.TransferRequest)
| TransferPlain (req : ticketRoutes.TransferRequest)
| Validate (req : ticketRoutes.ValidateRequest)
| Refund (req : refundController.Request)
| Webhook (req : paymentWebhooks.Request).

Definition serve (env : Env) (st : Store) (c : Call) : Response * Store :=
  match c with
  | Purchase req => ticketRoutes.purchase env st req
  | BatchPurchase req => ticketRoutes.batch_purchase env st req
  | Transfer req => ticketRoutes.transfer env st req
  | TransferPlain req => ticketRoutes.transfer_plain env st req
  | Validate req => ticketRoutes.validate env st req
  | Refund req => refundController.processRefund st req
  | Webhook req => paymentWebhooks.handlePaymentWebhook env st req
  end.

(** The store after a sequence of requests. *)
Fixpoint serve_all (env : Env) (st : Store) (cs : list Call) : Store :=
  match cs with
  | [] => st
  | c :: cs' => serve_all env (snd (serve env st c)) cs'
  end.

(** Following a transfer history from a holder: each entry must start at
    the holder the previous one ended with. *)
Fixpoint follow (holder : ObjectId) (h : list TransferEntry)
  : option ObjectId :=
  match h with
  | [] => Some holder
  | e :: h' => if tr_from e =? holder then follow (tr_to e) h' else None
  end.

(** The transfer history is a chain of custody: it starts with the
    issuance, the entry from the first holder to themself, each entry
    starts at the holder the previous one ended with, and it ends at the
    owner. *)
Definition custody_chain (t : Ticket) : Prop :=
  match t_transferHistory t with
  | [] => False
  | e :: _ =>
      tr_to e = tr_from e /\
      follow (tr_from e) (t_transferHistory t) = Some (t_owner t)
  end.

(** The usage flag says whether the ticket was validated, which happened
    at most once. *)
Definition validated_once (t : Ticket) : Prop :=
  if t_isUsed t then exists v, t_validationHistory t = [v]
  else t_validationHistory t = [].

(** A ticket holds at most one refund entry, and then it is REFUNDED and
    the entry is a completed refund of its price. *)
Definition refunded_once (t : Ticket) : Prop :=
  match t_refundHistory t with
  | [] => True
  | [r] => t_status t = REFUNDED /\ rf_amount r = t_price t /\
           rf_status r = COMPLETED
  | _ => False
  end.

(** What identifies a ticket and what it was sold as. *)
Definition identity (t : Ticket)
  : ObjectId * ObjectId * string * Z * Tier :=
  (t_id t, t_event t, t_qrData t, t_price t, t_tier t).

(** A string without the letter E, as the hexadecimal ids are. *)
Fixpoint no_E (s : string) : bool :=
  match s with
  | EmptyString => true
  | String c s' => negb (Ascii.eqb c "E") && no_E s'
  end.

(** A ticket as the batch issues it. *)
Definition issued_to (req : ticketRoutes.BatchRequest) (eventId : ObjectId)
  (tier : Tier) (t : Ticket) : Prop :=
  t_tier t = tier /\ t_price t = ticketRoutes.price_of tier /\
  t_owner t = ticketRoutes.ba_userId req /\ t_event t = eventId /\
  t_status t = ACTIVE /\ t_isUsed t = false /\ t_transactionId t = None.

(** The number of tickets a batch asks for. *)
Definition batch_size (items : list (Tier * nat)) : nat :=
  fold_right (fun item n => snd item + n) 0 items.

(** ** More requests on the sample deployment *)
Module MoreSamples.
Import Sample ticketRoutes.

(** A correctly signed success report with the amount 0. *)
Definition pay_nothing : paymentWebhooks.Request :=
  signed (Some "idem-0")
    (mkBody (Some "txn_0") (Some "success") (Some ["t1"]) (Some 0%Z)
       (Some "SZL") (Some "momo") None None) 5000.


(** alice asks again for the refund of t1, under another key. *)
Definition refund_t1_other_key : refundController.Request :=
  refundController.mkRequest "t1" "rain" "k8" "u1" 9600 "r11".

(** alice asks for the refund of the used ticket t3. *)
Definition refund_t3 : refundController.Request :=
  refundController.mkRequest "t3" "rain" "k3" "u1" 9000 "r9".

(** The refund of t1 sent twice without the header. *)
Definition keyless_call : idempotency.RefundCall :=
  idempotency.mkRefundCall None "t1" "rain" "u1" 9000 "r9" "uuid-1".

Definition keyless_retry : idempotency.RefundCall :=
  idempotency.mkRefundCall None "t1" "rain" "u1" 9100 "r10" "uuid-2".

(** The gate scans a text that is no ticket, and the ticket bob bought. *)
Definition scan_junk : ValidateRequest :=
  mkValidate "u3" "hello" None 9000.

Definition scan_t9 : ValidateRequest :=
  mkValidate "u3" (scan_token "e1" "u2" 8000) (Some "Gate A") 9000.

(** bob buys a VIP ticket in the millisecond of his General ticket. *)
Definition buy_vip_same_instant : PurchaseRequest :=
  mkPurchase "u2" "e1" (Some VIP) 1 8000 "t10".

(** bob buys a ticket and leaves the tier out. *)
Definition buy_without_tier : PurchaseRequest :=
  mkPurchase "u2" "e1" None 1 8000 "t9".

(** alice asks for the refund of t1 and gives no reason. *)
Definition refund_t1_no_reason : refundController.Request :=
  refundController.mkRequest "t1" EmptyString "k7" "u1" 9000 "r9".

(** alice transfers tickets that are not stored: under an ObjectId and
    under a string that is none. *)
Definition give_unknown : TransferRequest :=
  mkTransferReq unknown_id "u1" "bob@example.com" 7000.

Definition give_junk : TransferRequest :=
  mkTransferReq "t404" "u1" "bob@example.com" 7000.


(** bob orders two General tickets while the clock stands still. *)
Definition batch_stalled : BatchRequest :=
  mkBatch "u2" "e1" [(General, 2)] (fun _ => 8000%N)
    (fun k => if Nat.eqb k 0 then "t11" else "t12").

(** alice gives the used ticket t3 to bob. *)
Definition give_t3 : TransferRequest :=
  mkTransferReq "t3" "u1" "bob@example.com" 7000.

(** A day at the box office. *)
Definition day : list Call :=
  [Purchase buy_general; TransferPlain give_t1; Validate scan_t1;
   Refund refund_t2_again; Refund refund_t1; Webhook pay_t4;
   TransferPlain give_t3].

(** Deliveries to the earlier controller, which expects the secret itself
    as the signature: two success reports for t1 under different
    transaction ids. *)
Definition earlier_pay_t1 : paymentWebhooks.Request :=
  paymentWebhooks.mkRequest (Some "idem-1") (Some "whsec_test")
    (body_of "txn_123" "success" ["t1"; unknown_id] 1) 5000.

Definition earlier_pay_t1_again : paymentWebhooks.Request :=
  paymentWebhooks.mkRequest (Some "idem-2") (Some "whsec_test")
    (body_of "txn_999" "success" ["t1"] 200) 5200.

End MoreSamples.

(** * Properties *)

(** ** Lists and documents *)

Lemma find_app_last {A} (p : A -> bool) (l : list A) (x : A) :
  existsb p l = false -> p x = true -> find p (l ++ [x]) = Some x.
Proof.
  induction l as [|y l IH]; simpl; intros Hl Hx.
  - now rewrite Hx.
  - apply orb_false_iff in Hl as [Hy Hl]. rewrite Hy. auto.
Qed.

(** Saving over the first document that [p] selects makes the saved
    document the first one that satisfies [p] and [q]. *)
Lemma find_after_replace {A} (p q : A -> bool) (l : list A) (x y : A) :
  find p l = Some x -> p y = true -> q y = true ->
  find (fun a => p a && q a) (update_first p (fun _ => y) l) = Some y.
Proof.
  intros Hf Hp Hq. induction l as [|a l IH]; simpl in *; [discriminate|].
  destruct (p a) eqn:Ha; simpl.
  - now rewrite Hp, Hq.
  - rewrite Ha. simpl. auto.
Qed.

Lemma mem_id_In (id : ObjectId) (ids : list ObjectId) :
  mem_id id ids = true <-> In id ids.
Proof.
  unfold mem_id. rewrite existsb_exists. split.
  - intros (x & Hin & Heq). apply String.eqb_eq in Heq. now subst.
  - intros Hin. exists id. split; [assumption | apply String.eqb_refl].
Qed.

(** An id under which a ticket is found casts. *)
Lemma stored_id_casts (env : Env) (st : Store) (id : string) (t : Ticket) :
  Ticket_findById st id = Some t -> casts env st id = true.
Proof.
  intros H. unfold casts. apply orb_true_iff. left. apply mem_id_In.
  apply find_some in H as [Hin Hid]. unfold has_id in Hid.
  apply String.eqb_eq in Hid. subst id. now apply in_map.
Qed.


Lemma findById_cast_found (env : Env) (st : Store) (id : string)
  (t : Ticket) :
  Ticket_findById st id = Some t ->
  Ticket_findById_cast env st id = ret (Some t).
Proof.
  intros H. unfold Ticket_findById_cast.
  now rewrite (stored_id_casts env st id t H), H.
Qed.

(** What [Ticket.find] selects depends on the ids of the stored tickets
    only. *)
Lemma find_in_length (ids : list ObjectId) (l l' : list Ticket) :
  map t_id l = map t_id l' ->
  length (filter (fun t => mem_id (t_id t) ids) l) =
  length (filter (fun t => mem_id (t_id t) ids) l').
Proof.
  revert l'. induction l as [|x l IH]; intros [|y l']; simpl;
    try discriminate; [reflexivity|].
  intros H. injection H as Hxy Hl. rewrite Hxy.
  destruct (mem_id (t_id y) ids); simpl; auto.
Qed.

Lemma throw_if_false {B} (c : bool) (e : Error) (k : Result B) :
  c = false -> (throw_if c e ;;; k) = k.
Proof. intros ->. reflexivity. Qed.

Lemma throw_if_true {B} (c : bool) (e : Error) (k : Result B) :
  c = true -> (throw_if c e ;;; k) = throw e.
Proof. intros ->. reflexivity. Qed.

(** ** The payment webhook: gates *)

Section WebhookGates.
Import paymentWebhooks.
Variable env : Env.

Lemma signature_rejected_of_mismatch (req : Request) :
  x_payment_signature req <> Some (expectedSignature env req) ->
  signature_rejected env req = true.
Proof.
  unfold signature_rejected. intros Hne.
  destruct (x_payment_signature req) as [s|]; simpl.
  - destruct (String.eqb_spec s (expectedSignature env req)) as [->|_].
    + contradiction Hne. reflexivity.
    + apply orb_true_r.
  - reflexivity.
Qed.

(** The handler, once the two header gates are passed. *)
Lemma handler_after_gates (st : Store) (req : Request) :
  truthy_str (idempotency_key req) = true ->
  signature_rejected env req = false ->
  handlePaymentWebhook env st req =
  run_session st
    match required_fields (body req) with
    | None =>
        throw (AppError "Missing required fields in webhook payload" 400
                 (Some "MISSING_REQUIRED_FIELDS"))
    | Some (transactionId, status, ticketIds, amount, currency,
            paymentMethod) =>
        if status =? "success" then
          process_success env st req transactionId ticketIds amount currency
            paymentMethod
        else if status =? "failed" then
          st' <- Ticket_updateMany_cast env ticketIds
                   (fail transactionId (now req)) st ;;
          ret (acknowledgement req transactionId ticketIds, st')
        else
          ret (acknowledgement req transactionId ticketIds, st)
    end.
Proof.
  intros Hk Hs. unfold handlePaymentWebhook.
  rewrite throw_if_false by (rewrite Hk; reflexivity).
  rewrite throw_if_false by assumption. reflexivity.
Qed.

(** C3 (amended).  A delivery whose signature header is not the HMAC of
    the payload under the shared secret is rejected, and the store is
    left as it was, whatever the payload: with 401 INVALID_SIGNATURE when
    it carries an idempotency key, with 400 MISSING_IDEMPOTENCY_KEY when
    it does not, since that gate comes first. *)
Theorem invalid_signature_rejected (st : Store) (req : Request) :
  x_payment_signature req <> Some (expectedSignature env req) ->
  handlePaymentWebhook env st req =
  (Next (if truthy_str (idempotency_key req)
         then AppError "Invalid webhook signature" 401
                (Some "INVALID_SIGNATURE")
         else AppError "Idempotency key required" 400
                (Some "MISSING_IDEMPOTENCY_KEY")),
   st).
Proof.
  intros Hne. unfold handlePaymentWebhook.
  destruct (truthy_str (idempotency_key req)) eqn:Hk; simpl.
  - rewrite throw_if_true by now apply signature_rejected_of_mismatch.
    reflexivity.
  - reflexivity.
Qed.

End WebhookGates.

(** ** The payment webhook: the branches *)

Section WebhookBranches.
Import paymentWebhooks.
Variable env : Env.

Lemma required_fields_inv (b : WebhookBody) (txn status : string)
  (ids : list ObjectId) (amount : Z) (cur pm : string) :
  required_fields b = Some (txn, status, ids, amount, cur, pm) ->
  b_transactionId b = Some txn /\ b_status b = Some status /\
  b_ticketIds b = Some ids /\ b_amount b = Some amount /\
  b_currency b = Some cur /\ b_paymentMethod b = Some pm /\
  txn <> EmptyString /\ ids <> [] /\ amount <> 0%Z.
Proof.
  unfold required_fields.
  destruct (b_transactionId b) as [a1|]; [|discriminate].
  destruct (b_status b) as [a2|]; [|discriminate].
  destruct (b_ticketIds b) as [a3|]; [|discriminate].
  destruct (b_amount b) as [a4|]; [|discriminate].
  destruct (b_currency b) as [a5|]; [|discriminate].
  destruct (b_paymentMethod b) as [a6|]; [|discriminate].
  destruct (String.eqb_spec a1 EmptyString) as [|H1]; [discriminate|].
  destruct (a2 =? EmptyString); [discriminate|].
  destruct a3 as [|i a3]; [discriminate|].
  destruct (Z.eqb_spec a4 0) as [|H4]; [discriminate|].
  destruct (a5 =? EmptyString); [discriminate|].
  destruct (a6 =? EmptyString); [discriminate|].
  simpl. intros H. injection H as <- <- <- <- <- <-.
  repeat split; auto. discriminate.
Qed.

(** How the success branch ends: on an id that does not cast, on a
    ticket that is not found, on the amount, and otherwise on the payment
    record.  The test for a transaction id never fails a delivery, and
    the acknowledgement is never reached. *)
Lemma success_branch (st : Store) (req : Request) (txn : string)
  (ids : list ObjectId) (amount : Z) (cur pm : string) :
  truthy_str (idempotency_key req) = true ->
  signature_rejected env req = false ->
  required_fields (body req) = Some (txn, "success", ids, amount, cur, pm) ->
  handlePaymentWebhook env st req =
  (Next
     (if negb (forallb (casts env st) ids) then CastError "_id"
      else if negb (Nat.eqb (length (Ticket_find_in st ids)) (length ids))
      then AppError "Some tickets not found" 404 (Some "TICKETS_NOT_FOUND")
      else if negb (amount =?
                    fold_left (fun sum t => sum + t_price t)
                      (Ticket_find_in st ids) 0)%Z
      then AppError "Payment amount mismatch" 400 (Some "AMOUNT_MISMATCH")
      else ReferenceError "Payment is not defined"), st).
Proof.
  intros Hk Hs Hreq.
  rewrite (handler_after_gates env st req Hk Hs), Hreq. simpl.
  unfold process_success, Ticket_find_cast.
  destruct (forallb (casts env st) ids); simpl; [|reflexivity].
  destruct (Nat.eqb_spec (length (Ticket_find_in st ids)) (length ids))
    as [Hlen|Hlen]; simpl; [|reflexivity].
  assert (Hdead : forall l : list Ticket,
             existsb (fun _ => false) l = false).
  { induction l; simpl; auto. }
  rewrite Hdead. simpl.
  destruct (amount =?
            fold_left (fun sum t => sum + t_price t)
              (Ticket_find_in st ids) 0)%Z; simpl; [|reflexivity].
  destruct (Ticket_find_in st ids) as [|t0 rest]; simpl; [|reflexivity].
  destruct (required_fields_inv _ _ _ _ _ _ _ Hreq)
    as (_ & _ & _ & _ & _ & _ & _ & Hne & _).
  destruct ids; [contradiction Hne; reflexivity | discriminate Hlen].
Qed.

(** The failed branch: the acknowledgement and the [updateMany], unless
    an id does not cast. *)
Lemma failed_branch (st : Store) (req : Request) (txn : string)
  (ids : list ObjectId) (amount : Z) (cur pm : string) :
  truthy_str (idempotency_key req) = true ->
  signature_rejected env req = false ->
  required_fields (body req) = Some (txn, "failed", ids, amount, cur, pm) ->
  handlePaymentWebhook env st req =
  if forallb (casts env st) ids
  then (acknowledgement req txn ids,
        Ticket_updateMany ids (set_updatedAt (now req)) st)
  else (Next (CastError "_id"), st).
Proof.
  intros Hk Hs Hreq.
  rewrite (handler_after_gates env st req Hk Hs), Hreq. simpl.
  unfold Ticket_updateMany_cast.
  destruct (forallb (casts env st) ids); reflexivity.
Qed.

(** A report whose status is neither success nor failed is acknowledged
    and nothing else. *)
Lemma other_branch (st : Store) (req : Request) (txn status : string)
  (ids : list ObjectId) (amount : Z) (cur pm : string) :
  truthy_str (idempotency_key req) = true ->
  signature_rejected env req = false ->
  required_fields (body req) = Some (txn, status, ids, amount, cur, pm) ->
  status <> "success" -> status <> "failed" ->
  handlePaymentWebhook env st req = (acknowledgement req txn ids, st).
Proof.
  intros Hk Hs Hreq H1 H2.
  rewrite (handler_after_gates env st req Hk Hs), Hreq.
  apply String.eqb_neq in H1, H2. rewrite H1, H2. reflexivity.
Qed.

(** Every way a delivery can end.  The store changes in the last case
    only. *)
Lemma webhook_cases (st : Store) (req : Request) :
  (exists e, handlePaymentWebhook env st req = (Next e, st) /\
             e <> AppError "Some tickets already processed" 409
                    (Some "DUPLICATE_TRANSACTION")) \/
  (exists txn status ids amount cur pm,
     required_fields (body req) = Some (txn, status, ids, amount, cur, pm) /\
     status <> "success" /\ status <> "failed" /\
     handlePaymentWebhook env st req = (acknowledgement req txn ids, st)) \/
  (exists txn ids amount cur pm,
     required_fields (body req) = Some (txn, "failed", ids, amount, cur, pm) /\
     forallb (casts env st) ids = true /\
     handlePaymentWebhook env st req =
     (acknowledgement req txn ids,
      Ticket_updateMany ids (set_updatedAt (now req)) st)).
Proof.
  destruct (truthy_str (idempotency_key req)) eqn:Hk.
  2:{ left. eexists. split.
      - unfold handlePaymentWebhook. rewrite Hk. reflexivity.
      - discriminate. }
  destruct (signature_rejected env req) eqn:Hs.
  { left. eexists. split.
    - unfold handlePaymentWebhook. rewrite Hk, Hs. reflexivity.
    - discriminate. }
  destruct (required_fields (body req))
    as [[[[[[txn status] ids] amount] cur] pm]|] eqn:Hreq.
  2:{ left. eexists. split.
      - rewrite (handler_after_gates env st req Hk Hs), Hreq. reflexivity.
      - discriminate. }
  destruct (String.eqb_spec status "success") as [->|H1].
  { left. eexists. split.
    - apply (success_branch st req txn ids amount cur pm Hk Hs Hreq).
    - destruct (negb (forallb (casts env st) ids)); [discriminate|].
      destruct (negb (Nat.eqb _ _)); [discriminate|].
      destruct (negb (amount =? _)%Z); discriminate. }
  destruct (String.eqb_spec status "failed") as [->|H2].
  - pose proof (failed_branch st req txn ids amount cur pm Hk Hs Hreq) as H.
    destruct (forallb (casts env st) ids) eqn:Hc.
    + right. right. exists txn, ids, amount, cur, pm. auto.
    + left. eexists. split; [exact H | discriminate].
  - right. left. exists txn, status, ids, amount, cur, pm.
    repeat split; auto.
    apply (other_branch st req txn status ids amount cur pm); assumption.
Qed.

(** What a delivery leaves behind: the store as it was, up to the
    [updatedAt] of tickets. *)
Lemma webhook_store (st : Store) (req : Request) :
  exists ids,
    snd (handlePaymentWebhook env st req) =
    Ticket_updateMany ids (set_updatedAt (now req)) st.
Proof.
  assert (Hnone : Ticket_updateMany [] (set_updatedAt (now req)) st = st).
  { unfold Ticket_updateMany, with_tickets. destruct st as [ts es us ps].
    simpl. f_equal. induction ts; simpl; congruence. }
  destruct (webhook_cases st req)
    as [(e & H & _)|[(txn & status & ids & amount & cur & pm & _ & _ & _ & H)
       |(txn & ids & amount & cur & pm & _ & _ & H)]]; rewrite H; cbn [snd].
  - exists []. now rewrite Hnone.
  - exists []. now rewrite Hnone.
  - exists ids. reflexivity.
Qed.

Lemma webhook_events (st : Store) (req : Request) :
  events (snd (handlePaymentWebhook env st req)) = events st /\
  users (snd (handlePaymentWebhook env st req)) = users st /\
  payments (snd (handlePaymentWebhook env st req)) = payments st.
Proof.
  destruct (webhook_store st req) as (ids & ->). auto.
Qed.

End WebhookBranches.

(** ** Capacity *)

Section Counters.
Import ticketRoutes.
Variable env : Env.

Lemma createSingleTicket_events (now : Date) (fresh eventId userId : ObjectId)
  (tier : option Tier) (st st' : Store) (t : Ticket) :
  createSingleTicket env now fresh eventId userId tier st = inr (t, st') ->
  events st' = events st.
Proof.
  unfold createSingleTicket, Ticket_insert.
  destruct tier as [tier|]; simpl; [|discriminate].
  destruct (existsb _ (tickets st)); simpl; [discriminate|].
  intros H. injection H as _ <-. reflexivity.
Qed.

Lemma create_all_events (req : BatchRequest) (eventId : ObjectId)
  (tiers : list Tier) (k : nat) (st st' : Store) (ts : list Ticket) :
  create_all env req eventId tiers k st = inr (ts, st') ->
  events st' = events st.
Proof.
  revert k st st' ts. induction tiers as [|tier rest IH]; intros k st st' ts.
  - simpl. intros H. injection H as _ <-. reflexivity.
  - simpl.
    destruct (createSingleTicket env (ba_clock req k) (ba_freshId req k)
                eventId (ba_userId req) (Some tier) st) as [e|[t st1]] eqn:Hc;
      simpl; [discriminate|].
    destruct (create_all env req eventId rest (S k) st1) as [e|[ts' st2]]
      eqn:Hr; simpl; [discriminate|].
    intros H. injection H as _ <-.
    rewrite (IH _ _ _ _ Hr). eapply createSingleTicket_events; eassumption.
Qed.

Lemma purchase_events (st : Store) (req : PurchaseRequest) :
  events (snd (purchase env st req)) = events st.
Proof.
  unfold purchase, run_try.
  destruct (Nat.ltb 1 (pu_quantity req)); simpl; [reflexivity|].
  destruct (Event_findById st (pu_eventId req)) as [ev|]; simpl;
    [|reflexivity].
  destruct (createSingleTicket env (pu_now req) (pu_freshId req) (e_id ev)
              (pu_userId req) (pu_tier req) st) as [e|[t st1]] eqn:Hc;
    simpl; [reflexivity|].
  eapply createSingleTicket_events; eassumption.
Qed.

Lemma batch_purchase_events (st : Store) (req : BatchRequest) :
  events (snd (batch_purchase env st req)) = events st.
Proof.
  unfold batch_purchase, run_session.
  destruct (Event_findById st (ba_eventId req)) as [ev|]; simpl;
    [|reflexivity].
  destruct (create_all env req (e_id ev) (batch_tiers (ba_tickets req)) 0 st)
    as [e|[ts st1]] eqn:Hc; simpl; [reflexivity|].
  eapply create_all_events; eassumption.
Qed.

(** Looking an event up by id does not depend on the ticket types. *)
Lemma Event_findById_retyped (f : Event -> list TicketType) (st : Store)
  (id : ObjectId) :
  Event_findById (retyped f st) id = option_map (retype f) (Event_findById st id).
Proof.
  unfold Event_findById, retyped, with_events. cbn [events].
  induction (events st) as [|e l IH]; simpl; [reflexivity|].
  destruct (e_id e =? id); [reflexivity | exact IH].
Qed.

Lemma createSingleTicket_retyped (f : Event -> list TicketType) (now : Date)
  (fresh eventId userId : ObjectId) (tier : option Tier) (st : Store) :
  createSingleTicket env now fresh eventId userId tier (retyped f st) =
  match createSingleTicket env now fresh eventId userId tier st with
  | inl e => inl e
  | inr (t, st') => inr (t, retyped f st')
  end.
Proof.
  unfold createSingleTicket, Ticket_insert.
  destruct tier as [tier|]; simpl; [|reflexivity].
  destruct (existsb _ (tickets st)); reflexivity.
Qed.

Lemma create_all_retyped (f : Event -> list TicketType) (req : BatchRequest)
  (eventId : ObjectId) (tiers : list Tier) (k : nat) (st : Store) :
  create_all env req eventId tiers k (retyped f st) =
  match create_all env req eventId tiers k st with
  | inl e => inl e
  | inr (ts, st') => inr (ts, retyped f st')
  end.
Proof.
  revert k st. induction tiers as [|tier rest IH]; intros k st;
    [reflexivity|].
  cbn [create_all]. rewrite createSingleTicket_retyped.
  destruct (createSingleTicket env (ba_clock req k) (ba_freshId req k)
              eventId (ba_userId req) (Some tier) st) as [e|[t st1]];
    simpl; [reflexivity|].
  rewrite IH.
  destruct (create_all env req eventId rest (S k) st1) as [e|[ts st2]];
    reflexivity.
Qed.

Lemma purchase_retyped (f : Event -> list TicketType) (st : Store)
  (req : PurchaseRequest) :
  purchase env (retyped f st) req =
  (fst (purchase env st req), retyped f (snd (purchase env st req))).
Proof.
  unfold purchase, run_try.
  destruct (Nat.ltb 1 (pu_quantity req)); simpl; [reflexivity|].
  rewrite Event_findById_retyped.
  destruct (Event_findById st (pu_eventId req)) as [ev|]; simpl;
    [|reflexivity].
  rewrite createSingleTicket_retyped.
  destruct (createSingleTicket env (pu_now req) (pu_freshId req) (e_id ev)
              (pu_userId req) (pu_tier req) st) as [e|[t st1]];
    reflexivity.
Qed.

Lemma batch_purchase_retyped (f : Event -> list TicketType) (st : Store)
  (req : BatchRequest) :
  batch_purchase env (retyped f st) req =
  (fst (batch_purchase env st req),
   retyped f (snd (batch_purchase env st req))).
Proof.
  unfold batch_purchase, run_session.
  rewrite Event_findById_retyped.
  destruct (Event_findById st (ba_eventId req)) as [ev|]; simpl;
    [|reflexivity].
  rewrite create_all_retyped.
  destruct (create_all env req (e_id ev) (batch_tiers (ba_tickets req)) 0 st)
    as [e|[ts st1]]; reflexivity.
Qed.

(** C2 (amended).  Ticket issuance, single and batch, neither consults
    nor changes the ticket types of an event.  Its response and the
    tickets it stores are the same whatever names, prices, capacities
    and sold counters the stored events have, so it does not depend on
    capacity being available; and it leaves every event as it is stored,
    so it preserves sold-count <= capacity. *)
Theorem issuance_ignores_capacity (st : Store) :
  (forall f req,
     purchase env (retyped f st) req =
     (fst (purchase env st req), retyped f (snd (purchase env st req)))) /\
  (forall f req,
     batch_purchase env (retyped f st) req =
     (fst (batch_purchase env st req),
      retyped f (snd (batch_purchase env st req)))) /\
  (forall req, events (snd (purchase env st req)) = events st) /\
  (forall req, events (snd (batch_purchase env st req)) = events st) /\
  (within_capacity st ->
   forall req breq,
     within_capacity (snd (purchase env st req)) /\
     within_capacity (snd (batch_purchase env st breq))).
Proof.
  split; [intros; apply purchase_retyped|].
  split; [intros; apply batch_purchase_retyped|].
  split; [intros; apply purchase_events|].
  split; [intros; apply batch_purchase_events|].
  intros Hcap req breq. unfold within_capacity in *.
  rewrite purchase_events, batch_purchase_events. auto.
Qed.

End Counters.

(** ** Refunds *)

Section Refunds.
Import refundController.

Lemma find_of_exists {A} (p : A -> bool) (l : list A) (x : A) :
  In x l -> p x = true -> exists y, find p l = Some y.
Proof.
  intros Hin Hp. destruct (find p l) as [y|] eqn:Hf; [eauto|].
  rewrite (find_none p l Hf x Hin) in Hp. discriminate.
Qed.

(** The idempotency lookup answers on its own. *)
Lemma lookup_answers (st : Store) (req : Request) (t0 : Ticket)
  (r0 : RefundEntry) :
  findExistingRefund st (ticketId req) (idempotencyKey req) = Some t0 ->
  find (has_key (idempotencyKey req)) (t_refundHistory t0) = Some r0 ->
  processRefund st req =
  (Json 200 (RefundDeduplicated (rf_status r0) (rf_processedAt r0)), st).
Proof.
  intros Ht Hr. unfold processRefund. now rewrite Ht, Hr.
Qed.

Lemma same_id_same_ticket (l : list Ticket) (a b : Ticket) :
  NoDup (map t_id l) -> In a l -> In b l -> t_id a = t_id b -> a = b.
Proof.
  induction l as [|x l IH]; simpl; [tauto|].
  intros Hnd Ha Hb Hid. inversion Hnd as [|? ? Hnotin Hnd']; subst.
  destruct Ha as [->|Ha], Hb as [->|Hb]; auto.
  - exfalso. apply Hnotin. rewrite Hid. now apply in_map.
  - exfalso. apply Hnotin. rewrite <- Hid. now apply in_map.
Qed.

(** C10.  The idempotency lookup comes before the existence and ownership
    checks: whoever the requester is, when a ticket with the requested id
    holds a refund entry with the presented key, the controller answers
    200 with the status and time of a stored entry under that key and
    leaves the store as it is; with ticket ids unique, as [_id] is, the
    entry is the first one of that ticket under the key. *)
Theorem stored_refund_is_returned_to_any_requester (st : Store)
  (req : Request) (t : Ticket) (r : RefundEntry) :
  In t (tickets st) -> t_id t = ticketId req ->
  In r (t_refundHistory t) -> rf_idempotencyKey r = idempotencyKey req ->
  (exists t0 r0,
     In t0 (tickets st) /\ t_id t0 = ticketId req /\
     In r0 (t_refundHistory t0) /\
     rf_idempotencyKey r0 = idempotencyKey req /\
     processRefund st req =
     (Json 200 (RefundDeduplicated (rf_status r0) (rf_processedAt r0)), st))
  /\
  (NoDup (map t_id (tickets st)) ->
   find (has_key (idempotencyKey req)) (t_refundHistory t) = Some r ->
   processRefund st req =
   (Json 200 (RefundDeduplicated (rf_status r) (rf_processedAt r)), st)).
Proof.
  intros Ht Hid Hr Hkey.
  assert (Hk : has_key (idempotencyKey req) r = true).
  { unfold has_key. rewrite Hkey. apply String.eqb_refl. }
  assert (Hex : existsb (has_key (idempotencyKey req)) (t_refundHistory t)
                = true).
  { apply existsb_exists. eauto. }
  destruct (find_of_exists
              (fun t => has_id (ticketId req) t &&
                        existsb (has_key (idempotencyKey req))
                          (t_refundHistory t))
              (tickets st) t Ht) as (t0 & Ht0).
  { unfold has_id. rewrite Hid, String.eqb_refl, Hex. reflexivity. }
  destruct (find_some _ _ Ht0) as (Hin0 & Hp0).
  apply andb_true_iff in Hp0 as [Hid0 Hex0].
  unfold has_id in Hid0. apply String.eqb_eq in Hid0.
  split.
  - apply existsb_exists in Hex0 as (r' & Hr' & Hk').
    destruct (find_of_exists _ _ r' Hr' Hk') as (r0 & Hr0).
    destruct (find_some _ _ Hr0) as (Hinr0 & Hk0).
    exists t0, r0.
    unfold has_key in Hk0. apply String.eqb_eq in Hk0.
    repeat split; auto.
    now apply lookup_answers with (t0 := t0).
  - intros Hnd Hfirst.
    assert (t0 = t) as ->
      by (apply (same_id_same_ticket (tickets st)); congruence).
    now apply lookup_answers with (t0 := t).
Qed.

(** What a completed refund found and wrote. *)
Lemma completed_inv (st st1 : Store) (req : Request) (amount : Z)
  (cur : string) (rid : ObjectId) (at_ : Date) :
  processRefund st req = (Json 200 (RefundCompleted amount cur rid at_), st1) ->
  exists t,
    findExistingRefund st (ticketId req) (idempotencyKey req) = None /\
    Ticket_findById st (ticketId req) = Some t /\
    t_owner t = userId req /\ t_isUsed t = false /\
    t_status t <> REFUNDED /\
    let entry :=
      mkRefund (freshId req) (idempotencyKey req) (now req) (userId req)
        (t_price t) (reason req) COMPLETED in
    let saved :=
      set_refundHistory (t_refundHistory t ++ [entry])
        (set_status REFUNDED t) in
    st1 = Ticket_save (now req) saved st /\
    find (has_key (idempotencyKey req)) (t_refundHistory t ++ [entry])
    = Some (mkRefund rid (idempotencyKey req) at_ (userId req) (t_price t)
              (reason req) COMPLETED) /\
    amount = t_price t /\ cur = "SZL".
Proof.
  unfold processRefund, run_try.
  destruct (findExistingRefund st (ticketId req) (idempotencyKey req))
    as [t0|] eqn:Hex.
  { destruct (find _ (t_refundHistory t0)); simpl; discriminate. }
  destruct (Ticket_findById st (ticketId req)) as [t|] eqn:Hfind; simpl;
    [|discriminate].
  destruct (String.eqb_spec (t_owner t) (userId req)) as [Hown|_]; simpl;
    [|discriminate].
  unfold TicketModel.processRefund.
  destruct (t_isUsed t) eqn:Hused; simpl; [discriminate|].
  destruct (t_status t) eqn:Hst; simpl; try discriminate.
  all: destruct (TicketModel.refund_entry_failures (idempotencyKey req)
                   (reason req)) eqn:Hval; simpl; try discriminate.
  all: match goal with
       | |- context [find ?p ?l] => destruct (find p l) as [nr|] eqn:Hnr
       end; simpl; [|discriminate].
  all: intros H; injection H as <- <- <- <- <-.
  all: exists t; rewrite Hst; repeat split; auto; try discriminate.
  all: assert (Hnone : existsb (has_key (idempotencyKey req))
                         (t_refundHistory t) = false)
    by (pose proof (find_some _ _ Hfind) as [Hin Hid];
        pose proof (find_none _ _ Hex t Hin) as Hn; simpl in Hn;
        rewrite Hid in Hn; exact Hn).
  all: rewrite find_app_last in Hnr
    by (auto; unfold has_key; simpl; apply String.eqb_refl).
  all: injection Hnr as <-; simpl.
  all: rewrite find_app_last
    by (auto; unfold has_key; simpl; apply String.eqb_refl); reflexivity.
Qed.

(** After a completed refund the lookup finds the saved ticket and, in
    it, the entry the refund appended. *)
Lemma completed_then_found (st st1 : Store) (req : Request) (amount : Z)
  (cur : string) (rid : ObjectId) (at_ : Date) :
  processRefund st req = (Json 200 (RefundCompleted amount cur rid at_), st1) ->
  exists t1 r1,
    findExistingRefund st1 (ticketId req) (idempotencyKey req) = Some t1 /\
    find (has_key (idempotencyKey req)) (t_refundHistory t1) = Some r1 /\
    rf_status r1 = COMPLETED /\ rf_processedAt r1 = at_ /\ rf_id r1 = rid.
Proof.
  intros H.
  destruct (completed_inv _ _ _ _ _ _ _ H)
    as (t & Hnone & Hfind & _ & _ & _ & Hst1 & Hnew & _).
  cbv zeta in Hst1, Hnew.
  set (entry := mkRefund (freshId req) (idempotencyKey req) (now req)
                  (userId req) (t_price t) (reason req) COMPLETED) in *.
  set (saved := set_refundHistory (t_refundHistory t ++ [entry])
                  (set_status REFUNDED t)) in *.
  destruct (find_some _ _ Hfind) as [Hin Hid].
  assert (Hidt : t_id t = ticketId req).
  { unfold has_id in Hid. now apply String.eqb_eq in Hid. }
  exists (set_updatedAt (now req) saved),
         (mkRefund rid (idempotencyKey req) at_ (userId req) (t_price t)
            (reason req) COMPLETED).
  repeat split; auto.
  rewrite Hst1. unfold findExistingRefund, Ticket_save, Ticket_updateOne.
  cbn [tickets with_tickets].
  change (t_id saved) with (t_id t). rewrite Hidt.
  apply find_after_replace with (x := t).
  - exact Hfind.
  - unfold has_id. simpl. rewrite Hidt. apply String.eqb_refl.
  - simpl. rewrite existsb_app. simpl. unfold has_key at 2. simpl.
    rewrite String.eqb_refl. simpl. apply orb_true_r.
Qed.

(** C6 (amended).  Once a refund for a ticket and idempotency key has
    completed, every later request for the same pair, served in any number
    and by any requester, is answered 200 with one and the same payload,
    status [deduplicated] with the status COMPLETED and the processing time
    of the first answer, which is not the payload of the first answer; the
    store stays as the first refund left it, so no second entry is
    appended. *)
Theorem repeated_refund_is_deduplicated (st st1 : Store) (req : Request)
  (amount : Z) (cur : string) (rid : ObjectId) (at_ : Date)
  (later : list Request) :
  processRefund st req = (Json 200 (RefundCompleted amount cur rid at_), st1) ->
  Forall (fun q => ticketId q = ticketId req /\
                   idempotencyKey q = idempotencyKey req) later ->
  serve_refunds st1 later =
  (map (fun _ => Json 200 (RefundDeduplicated COMPLETED at_)) later, st1).
Proof.
  intros H Hall.
  destruct (completed_then_found _ _ _ _ _ _ _ H)
    as (t1 & r1 & Ht1 & Hr1 & Hs & Ha & _).
  assert (Hstep : forall q,
             ticketId q = ticketId req ->
             idempotencyKey q = idempotencyKey req ->
             processRefund st1 q =
             (Json 200 (RefundDeduplicated COMPLETED at_), st1)).
  { intros q Hid Hkey. rewrite <- Hs, <- Ha.
    apply lookup_answers with (t0 := t1); rewrite ?Hid, ?Hkey; assumption. }
  induction Hall as [|q later [Hid Hkey] _ IH]; simpl; [reflexivity|].
  now rewrite (Hstep q Hid Hkey), IH.
Qed.

End Refunds.

(** ** Used and refunded tickets *)

Section Lifecycle.
Import ticketRoutes refundController.
Variable env : Env.

(** C1 (amended).  A ticket whose usage flag is set is refused by validate
    with the 400 error Ticket already used; a refund of a ticket that is
    used, or whose status is REFUNDED, under an idempotency key that is not
    in its history is refused with a plain Error when the owner asks, and
    with 403 when someone else asks.  None of these is a 409, and each
    leaves the store, hence the owner, the usage flag and the histories of
    the ticket, as it was. *)
Theorem used_or_refunded_ticket_is_refused (st : Store) (t : Ticket) :
  (forall req payload,
     qrPayload_of (vl_qrData req) = inr payload ->
     Ticket_findByScan env st payload = Some t ->
     t_isUsed t = true ->
     validate env st req = (Next (AppError "Ticket already used" 400 None), st))
  /\
  (forall req,
     findExistingRefund st (ticketId req) (idempotencyKey req) = None ->
     Ticket_findById st (ticketId req) = Some t ->
     (t_owner t <> userId req ->
      processRefund st req =
      (Next (AppError "You do not own this ticket" 403 None), st)) /\
     (t_owner t = userId req -> t_isUsed t = true ->
      processRefund st req =
      (Next (PlainError "Cannot refund used ticket"), st)) /\
     (t_owner t = userId req -> t_isUsed t = false ->
      t_status t = REFUNDED ->
      processRefund st req =
      (Next (PlainError "Ticket already refunded"), st))).
Proof.
  split.
  - intros req payload Hp Hf Hu. unfold validate, validate_checks.
    rewrite Hp. simpl. rewrite Hf. simpl. rewrite Hu. reflexivity.
  - intros req Hnone Hfind. unfold processRefund. rewrite Hnone, Hfind. simpl.
    repeat split.
    + intros Hne. apply String.eqb_neq in Hne. rewrite Hne. reflexivity.
    + intros Ho Hu. rewrite Ho, String.eqb_refl. simpl.
      unfold TicketModel.processRefund. rewrite Hu. reflexivity.
    + intros Ho Hu Hs. rewrite Ho, String.eqb_refl. simpl.
      unfold TicketModel.processRefund. rewrite Hu, Hs. reflexivity.
Qed.

(** What validate does to the store: nothing when it hands an error to
    the error handler, and otherwise it saves the found ticket, which was
    not used, with the writes of [mark_used]. *)
Lemma validate_effect (st : Store) (req : ValidateRequest) :
  (exists e, validate env st req = (Next e, st)) \/
  (exists t, validate_checks env st req = inr t /\ t_isUsed t = false /\
             snd (validate env st req) =
             Ticket_save (vl_now req) (mark_used req t) st).
Proof.
  unfold validate.
  destruct (validate_checks env st req) as [e|t] eqn:Hc.
  - left. eauto.
  - right. exists t. repeat split.
    + unfold validate_checks in Hc.
      destruct (qrPayload_of (vl_qrData req)); simpl in Hc; [discriminate|].
      destruct (Ticket_findByScan env st s) as [t'|]; simpl in Hc;
        [|discriminate].
      destruct (t_isUsed t') eqn:Hu; simpl in Hc; [discriminate|].
      now injection Hc as <-.
    + destruct (Event_findById st (t_event (mark_used req t)));
        [destruct (User_findById st (t_owner (mark_used req t)))|];
        reflexivity.
Qed.

(** The writes of validate: the usage flag, one history entry, and
    nothing else; in particular not the status, which only the derived
    status of the earlier model would show as USED. *)
Lemma mark_used_writes (req : ValidateRequest) (t : Ticket) :
  virtual_status (mark_used req t) = USED /\
  t_isUsed (mark_used req t) = true /\
  t_validationHistory (mark_used req t) =
    (t_validationHistory t ++
       [mkValidation (vl_now req) (vl_userId req) (location_of req)])%list /\
  t_status (mark_used req t) = t_status t /\
  t_owner (mark_used req t) = t_owner t /\
  t_qrData (mark_used req t) = t_qrData t.
Proof. repeat split. Qed.

(** The writes of a transfer: the owner and one history entry; the scan
    token, which the schema makes immutable, and the status stay. *)
Lemma reassign_writes (req : TransferRequest) (t : Ticket) (u : User) :
  let t' := fst (reassign env req t u) in
  t_owner t' = u_id u /\
  t_transferHistory t' =
    (t_transferHistory t ++
       [mkTransfer (tf_userId req) (u_id u) (tf_now req)])%list /\
  t_qrData t' = t_qrData t /\
  t_status t' = t_status t.
Proof. repeat split. Qed.

(** What a transfer through the earlier routes does to the store: nothing
    when it hands an error to the error handler, and otherwise it saves
    the ticket with the writes of [reassign]. *)
Lemma transfer_plain_effect (st : Store) (req : TransferRequest) :
  (exists e, transfer_plain env st req = (Next e, st)) \/
  (exists t u,
     Ticket_findById st (tf_ticketId req) = Some t /\
     t_owner t = tf_userId req /\
     User_findByEmail st (tf_email req) = Some u /\
     snd (transfer_plain env st req) =
     Ticket_save (tf_now req) (fst (reassign env req t u)) st).
Proof.
  unfold transfer_plain, transfer_with, run_try.
  destruct (tf_email req =? EmptyString); simpl; [left; eauto|].
  destruct (Ticket_findById st (tf_ticketId req)) as [t|] eqn:Hf.
  2:{ left. unfold Ticket_findById_cast. rewrite Hf.
      destruct (casts env st (tf_ticketId req)); simpl; eauto. }
  rewrite (findById_cast_found env st _ t Hf). simpl.
  destruct (String.eqb_spec (t_owner t) (tf_userId req)) as [Ho|Ho]; simpl;
    [|left; eauto].
  destruct (User_findByEmail st (tf_email req)) as [u|]; simpl;
    [|left; eauto].
  right. exists t, u. auto.
Qed.

(** The method of the model, which no route calls, does both: it refuses
    a used ticket and marks the ticket TRANSFERRED. *)
Lemma transferTicket_marks (now : Date) (this : Ticket)
  (newOwnerId currentUserId : ObjectId) (st st' : Store) (t' : Ticket) :
  TicketModel.transferTicket now this newOwnerId currentUserId st
  = inr (t', st') ->
  t_isUsed this = false /\ t_status t' = TRANSFERRED /\
  t_owner t' = newOwnerId.
Proof.
  unfold TicketModel.transferTicket.
  destruct (negb (t_owner this =? currentUserId)); simpl; [discriminate|].
  destruct (t_isUsed this); simpl; [discriminate|].
  intros H. injection H as <- _. auto.
Qed.

(** The session-based transfer handler fails on every ticket that
    exists. *)
Lemma transfer_throws (st : Store) (req : TransferRequest) (t : Ticket) :
  Ticket_findById st (tf_ticketId req) = Some t ->
  transfer env st req = (Next (ReferenceError "req is not defined"), st).
Proof.
  intros Hf. unfold transfer, transfer_with.
  rewrite (findById_cast_found env st _ t Hf). reflexivity.
Qed.

End Lifecycle.

(** ** The properties on the sample deployment *)

Section Examples.
Import Sample ticketRoutes.

Lemma sample_within_capacity : within_capacity store.
Proof.
  intros e tt He Htt. simpl in He. destruct He as [<-|[]].
  simpl in Htt. destruct Htt as [<-|[<-|[]]]; simpl; lia.
Defined.

(** C3 as stated fails: a forged delivery that also lacks the idempotency
    key is answered 400, not 401. *)
Lemma forged_delivery_without_key_gets_400 :
  paymentWebhooks.x_payment_signature forged_without_key <>
    Some (paymentWebhooks.expectedSignature env forged_without_key) /\
  paymentWebhooks.handlePaymentWebhook env store forged_without_key =
  (Next (AppError "Idempotency key required" 400
           (Some "MISSING_IDEMPOTENCY_KEY")), store) /\
  response_status
    (fst (paymentWebhooks.handlePaymentWebhook env store forged_without_key))
  = Some 400.
Proof.
  split; [intro H; vm_compute in H; discriminate H | split; reflexivity].
Qed.

(** The amended C3 on a forged delivery that carries the key. *)
Lemma invalid_signature_rejected_witness :
  paymentWebhooks.x_payment_signature forged <>
    Some (paymentWebhooks.expectedSignature env forged) /\
  paymentWebhooks.handlePaymentWebhook env store forged =
  (Next (AppError "Invalid webhook signature" 401 (Some "INVALID_SIGNATURE")),
   store).
Proof.
  assert (H : paymentWebhooks.x_payment_signature forged <>
              Some (paymentWebhooks.expectedSignature env forged))
    by (intro H; vm_compute in H; discriminate H).
  split; [exact H|].
  exact (invalid_signature_rejected env store forged H).
Defined.

(** C4: the code diverges.  The payment of t1 is a success report that
    passes every check: it carries the key and the signature, t1 is
    stored, and the amount is the price of t1.  It is not acknowledged
    and it confirms nothing: the handler fails on the unbound [Payment]
    and aborts its session, so the store is as it was, and the delivery
    sent again ends the same way. *)
Theorem paid_delivery_is_never_acknowledged :
  paymentWebhooks.signature_rejected env pay_t1 = false /\
  paymentWebhooks.required_fields (paymentWebhooks.body pay_t1) =
    Some ("txn_123", "success", ["t1"], 200%Z, "SZL", "momo") /\
  Ticket_find_in store ["t1"] = [t1] /\ t_price t1 = 200%Z /\
  let first := paymentWebhooks.handlePaymentWebhook env store pay_t1 in
  first = (Next (ReferenceError "Payment is not defined"), store) /\
  response_status (fst first) = Some 500 /\
  paymentWebhooks.handlePaymentWebhook env (snd first) pay_t1 = first.
Proof.
  repeat split; vm_compute; reflexivity.
Qed.


(** C9: the code diverges.  No delivery changes an event: [sold] is no
    path of the ticket types, so the increment is dropped, and the
    success branch aborts its session before it commits.  After the
    payment of t1, a General ticket of the concert, the sold counter of
    the General tier is still 1. *)
Theorem success_counts_nothing :
  (forall (env' : Env) (st : Store) (req : paymentWebhooks.Request),
     events (snd (paymentWebhooks.handlePaymentWebhook env' st req)) =
     events st) /\
  t_tier t1 = General /\ t_event t1 = e_id concert /\
  In (mkTicketType "General" 200 1 1) (e_ticketTypes concert) /\
  events (snd (paymentWebhooks.handlePaymentWebhook env store pay_t1)) =
  [concert].
Proof.
  split; [intros; apply webhook_events|].
  repeat split; try (vm_compute; reflexivity). simpl. auto.
Qed.

(** C2 as stated fails: the General tier of the concert is sold out, by
    its sold counter and by the General tickets that are stored, yet a
    General ticket is issued. *)
Lemma sold_out_tier_is_sold_again :
  within_capacity store /\
  In (mkTicketType "General" 200 1 1) (e_ticketTypes concert) /\
  length (issued store "e1" General) = 2 /\
  exists t,
    purchase env store buy_general =
      (Json 201 (TicketCreated t), with_tickets (tickets store ++ [t]) store)
    /\ t_tier t = General /\ t_event t = e_id concert.
Proof.
  split; [exact sample_within_capacity|].
  split; [simpl; auto|].
  split; [vm_compute; reflexivity|].
  eexists. repeat split; vm_compute; reflexivity.
Qed.

(** The amended C2 on the sample store: bob buys a General ticket, alone
    and in a batch, and the counters stay within the capacities. *)
Lemma capacity_witness :
  within_capacity store /\
  within_capacity (snd (purchase env store buy_general)) /\
  within_capacity
    (snd (batch_purchase env store
            (mkBatch "u2" "e1" [(General, 1)] (fun _ => 8000%N)
               (fun _ => "t9")))).
Proof.
  split; [exact sample_within_capacity|].
  exact (proj2 (proj2 (proj2 (proj2 (issuance_ignores_capacity env store))))
           sample_within_capacity buy_general
           (mkBatch "u2" "e1" [(General, 1)] (fun _ => 8000%N)
              (fun _ => "t9"))).
Defined.

(** C6 as stated fails: the answer to the repeated request is not the
    payload of the first answer. *)
Lemma repeated_refund_payload_differs :
  let first := refundController.processRefund store refund_t1 in
  let second := refundController.processRefund (snd first) refund_t1 in
  fst first = Json 200 (RefundCompleted 200 "SZL" "r9" 9000) /\
  fst second = Json 200 (RefundDeduplicated COMPLETED 9000) /\
  fst second <> fst first.
Proof.
  repeat split; try (vm_compute; reflexivity).
  intro H. vm_compute in H. discriminate H.
Qed.

(** The amended C6: after the refund of t1, the request repeated by alice
    and then by bob under the same key. *)
Lemma repeated_refund_witness :
  let st1 := snd (refundController.processRefund store refund_t1) in
  serve_refunds st1 [refund_t1; refund_t1_by_bob] =
  ([Json 200 (RefundDeduplicated COMPLETED 9000);
    Json 200 (RefundDeduplicated COMPLETED 9000)], st1).
Proof.
  intros st1.
  apply (repeated_refund_is_deduplicated store st1 refund_t1 200%Z "SZL" "r9"
           9000%N [refund_t1; refund_t1_by_bob]).
  - vm_compute. reflexivity.
  - repeat constructor.
Defined.

(** C10 on bob, who does not own t2, presenting the key of its refund. *)
Lemma stored_refund_witness :
  t_owner t2 <> refundController.userId refund_t2_by_bob /\
  refundController.processRefund store refund_t2_by_bob =
  (Json 200 (RefundDeduplicated COMPLETED 2500), store).
Proof.
  split; [intro H; discriminate H|].
  apply (proj2 (stored_refund_is_returned_to_any_requester store
                  refund_t2_by_bob t2
                  (mkRefund "r1" "k1" 2500 "u1" 200 "rain" COMPLETED)
                  (or_intror (or_introl eq_refl)) eq_refl
                  (or_introl eq_refl) eq_refl)).
  - simpl. repeat constructor; simpl; intuition discriminate.
  - reflexivity.
Defined.

(** C1 as stated fails: t2 is REFUNDED, and the gate validates it: the
    usage flag and the validation history change. *)
Lemma refunded_ticket_is_validated :
  let after := validate env store scan_t2 in
  In t2 (tickets store) /\ t_status t2 = REFUNDED /\
  fst after =
    Json 200
      (ValidateOk "e1" "MTN Bushfire" 1900000000000 "Malkerns"
         "alice@example.com" 9000) /\
  option_map t_isUsed (Ticket_findById (snd after) "t2") = Some true /\
  option_map t_validationHistory (Ticket_findById (snd after) "t2") =
    Some [mkValidation 9000 "u3" "Gate B"] /\
  t_validationHistory t2 = [].
Proof.
  repeat split; try (vm_compute; reflexivity). simpl. auto.
Qed.

(** The amended C1: the used ticket t3 at the gate, and a second refund of
    the refunded ticket t2 under a new key. *)
Lemma used_or_refunded_witness :
  validate env store scan_t3 =
    (Next (AppError "Ticket already used" 400 None), store) /\
  refundController.processRefund store refund_t2_again =
    (Next (PlainError "Ticket already refunded"), store).
Proof.
  split.
  - apply (proj1 (used_or_refunded_ticket_is_refused env store t3) scan_t3
             (t_qrData t3)); vm_compute; reflexivity.
  - apply (proj2 (used_or_refunded_ticket_is_refused env store t2)
             refund_t2_again); vm_compute; reflexivity.
Defined.

(** C7 fails on the code.  A transfer writes the owner and the transfer
    history only: the scan token and the status of the saved ticket are
    those it had.  On the sample, after alice gave t1 to bob the ticket is
    still ACTIVE under alice's token, that token still admits the holder
    at the gate, and the token made for bob finds no ticket.  (The
    session-based handler does not get that far: it fails on every
    existing ticket.) *)
Theorem transfer_keeps_token_and_status :
  (forall (env' : Env) (st : Store) (req : TransferRequest),
     (exists e, transfer_plain env' st req = (Next e, st)) \/
     (exists t u,
        Ticket_findById st (tf_ticketId req) = Some t /\
        t_owner t = tf_userId req /\
        User_findByEmail st (tf_email req) = Some u /\
        snd (transfer_plain env' st req) =
        Ticket_save (tf_now req) (fst (reassign env' req t u)) st)) /\
  (forall (env' : Env) (req : TransferRequest) (t : Ticket) (u : User),
     t_owner (fst (reassign env' req t u)) = u_id u /\
     t_qrData (fst (reassign env' req t u)) = t_qrData t /\
     t_status (fst (reassign env' req t u)) = t_status t) /\
  let after := transfer_plain env store give_t1 in
  fst after =
    Json 200
      (TransferDone "Ticket transferred to bob@example.com"
         "data:image/png;base64,iVBORw0KGgo" None) /\
  option_map t_owner (Ticket_findById (snd after) "t1") = Some "u2" /\
  option_map t_status (Ticket_findById (snd after) "t1") = Some ACTIVE /\
  option_map t_qrData (Ticket_findById (snd after) "t1") = Some token1 /\
  option_map t_id (Ticket_findByScan env (snd after) token1) = Some "t1" /\
  Ticket_findByScan env (snd after) (scan_token "e1" "u2" 7000) = None /\
  fst (validate env (snd after) scan_t1) =
    Json 200
      (ValidateOk "e1" "MTN Bushfire" 1900000000000 "Malkerns"
         "bob@example.com" 9000) /\
  transfer env store give_t1 =
    (Next (ReferenceError "req is not defined"), store).
Proof.
  split; [intros; apply transfer_plain_effect|].
  split; [intros; repeat split|].
  repeat split; vm_compute; reflexivity.
Qed.

(** C8 fails on the code.  Validate succeeds on unused tickets only, sets
    the usage flag and appends one history entry with the time, the
    validator and the location, but it does not write the status: on the
    sample, t1 is still ACTIVE after the gate validated it. *)
Theorem validate_leaves_status :
  (forall (env' : Env) (st : Store) (req : ValidateRequest),
     (exists e, validate env' st req = (Next e, st)) \/
     (exists t,
        validate_checks env' st req = inr t /\ t_isUsed t = false /\
        snd (validate env' st req) =
        Ticket_save (vl_now req) (mark_used req t) st)) /\
  (forall (req : ValidateRequest) (t : Ticket),
     t_isUsed (mark_used req t) = true /\
     t_validationHistory (mark_used req t) =
       (t_validationHistory t ++
          [mkValidation (vl_now req) (vl_userId req) (location_of req)])%list
     /\ t_status (mark_used req t) = t_status t) /\
  let after := validate env store scan_t1 in
  fst after =
    Json 200
      (ValidateOk "e1" "MTN Bushfire" 1900000000000 "Malkerns"
         "alice@example.com" 9000) /\
  option_map t_isUsed (Ticket_findById (snd after) "t1") = Some true /\
  option_map t_validationHistory (Ticket_findById (snd after) "t1") =
    Some [mkValidation 9000 "u3" "Gate B"] /\
  option_map t_status (Ticket_findById (snd after) "t1") = Some ACTIVE.
Proof.
  split; [intros; apply validate_effect|].
  split; [intros; repeat split|].
  repeat split; vm_compute; reflexivity.
Qed.

End Examples.

(** * Further properties of the code *)

(** ** The payment webhook: what a delivery does and does not *)

Section WebhookMore.
Import paymentWebhooks.
Variable env : Env.

(** A delivery that passes the header gates is answered with the error 400
    MISSING_REQUIRED_FIELDS, and changes nothing, when one of the six
    required properties is absent or falsy: an empty string, an empty list
    of ticket ids, or the amount 0. *)
Theorem falsy_required_field_is_rejected (st : Store) (req : Request) :
  truthy_str (idempotency_key req) = true ->
  signature_rejected env req = false ->
  truthy_str (b_transactionId (body req)) = false \/
  truthy_str (b_status (body req)) = false \/
  b_ticketIds (body req) = None \/ b_ticketIds (body req) = Some [] \/
  b_amount (body req) = None \/ b_amount (body req) = Some 0%Z \/
  truthy_str (b_currency (body req)) = false \/
  truthy_str (b_paymentMethod (body req)) = false ->
  handlePaymentWebhook env st req =
  (Next (AppError "Missing required fields in webhook payload" 400
           (Some "MISSING_REQUIRED_FIELDS")), st).
Proof.
  intros Hk Hs Hfalsy.
  rewrite (handler_after_gates env st req Hk Hs).
  destruct (required_fields (body req))
    as [[[[[[txn status] ids] amount] cur] pm]|] eqn:Hreq; [|reflexivity].
  exfalso. unfold required_fields in Hreq. unfold truthy_str in Hfalsy.
  destruct (b_transactionId (body req)) as [a1|]; [|discriminate].
  destruct (b_status (body req)) as [a2|]; [|discriminate].
  destruct (b_ticketIds (body req)) as [a3|]; [|discriminate].
  destruct (b_amount (body req)) as [a4|]; [|discriminate].
  destruct (b_currency (body req)) as [a5|]; [|discriminate].
  destruct (b_paymentMethod (body req)) as [a6|]; [|discriminate].
  destruct (negb (a1 =? EmptyString)) eqn:E1; simpl in Hreq; [|discriminate].
  destruct (negb (a2 =? EmptyString)) eqn:E2; simpl in Hreq; [|discriminate].
  destruct a3 as [|i a3]; simpl in Hreq; [discriminate|].
  destruct (Z.eqb_spec a4 0) as [|H4]; simpl in Hreq; [discriminate|].
  destruct (negb (a5 =? EmptyString)) eqn:E5; simpl in Hreq; [|discriminate].
  destruct (negb (a6 =? EmptyString)) eqn:E6; simpl in Hreq; [|discriminate].
  destruct Hfalsy as [H|[H|[H|[H|[H|[H|[H|H]]]]]]];
    try discriminate H; try congruence.
Qed.





(** No delivery records a payment.  Whatever a delivery reports, every
    stored ticket is afterwards what it was, up to its [updatedAt], which
    becomes the time of the delivery on some tickets, and the events, the
    users and the payment records are what they were. *)
Theorem webhook_records_no_payment (st : Store) (req : Request) :
  let st' := snd (handlePaymentWebhook env st req) in
  Forall2 (fun t t' => t' = t \/ t' = set_updatedAt (now req) t)
    (tickets st) (tickets st') /\
  events st' = events st /\ users st' = users st /\
  payments st' = payments st.
Proof.
  cbv zeta. destruct (webhook_store env st req) as (ids & ->).
  split; [|auto]. cbn [tickets Ticket_updateMany with_tickets].
  induction (tickets st) as [|t l IH]; simpl; constructor; auto.
  destruct (mem_id (t_id t) ids); auto.
Qed.


(** The answer of the handler depends on the stored tickets through
    their ids and prices only. *)
Lemma casts_ext (st st' : Store) (id : string) :
  map t_id (tickets st') = map t_id (tickets st) ->
  casts env st' id = casts env st id.
Proof. intros H. unfold casts. now rewrite H. Qed.

Lemma forallb_casts_ext (st st' : Store) (ids : list string) :
  map t_id (tickets st') = map t_id (tickets st) ->
  forallb (casts env st') ids = forallb (casts env st) ids.
Proof.
  intros H. induction ids as [|id ids IH]; simpl; [reflexivity|].
  now rewrite IH, (casts_ext st st' id H).
Qed.

Lemma found_sum_ext (ids : list ObjectId) (l l' : list Ticket) (acc : Z) :
  map (fun t => (t_id t, t_price t)) l = map (fun t => (t_id t, t_price t)) l' ->
  fold_left (fun sum t => sum + t_price t)%Z
    (filter (fun t => mem_id (t_id t) ids) l) acc =
  fold_left (fun sum t => sum + t_price t)%Z
    (filter (fun t => mem_id (t_id t) ids) l') acc.
Proof.
  revert l' acc. induction l as [|x l IH]; intros [|y l'] acc; simpl;
    try discriminate; [reflexivity|].
  intros H. injection H as Hid Hprice Hl. rewrite Hid.
  destruct (mem_id (t_id y) ids); simpl; auto.
  rewrite Hprice. auto.
Qed.

Lemma webhook_answer_ext (st st' : Store) (req : Request) :
  map (fun t => (t_id t, t_price t)) (tickets st') =
  map (fun t => (t_id t, t_price t)) (tickets st) ->
  fst (handlePaymentWebhook env st' req) =
  fst (handlePaymentWebhook env st req).
Proof.
  intros Hsame.
  assert (Hids : map t_id (tickets st') = map t_id (tickets st)).
  { pose proof (f_equal (map fst) Hsame) as H.
    rewrite !map_map in H. exact H. }
  assert (Hcasts : forall ids,
             forallb (casts env st') ids = forallb (casts env st) ids).
  { intros ids. now apply forallb_casts_ext. }
  destruct (truthy_str (idempotency_key req)) eqn:Hk.
  2:{ unfold handlePaymentWebhook. rewrite Hk. reflexivity. }
  destruct (signature_rejected env req) eqn:Hs.
  { unfold handlePaymentWebhook. rewrite Hk, Hs. reflexivity. }
  destruct (required_fields (body req))
    as [[[[[[txn status] ids] amount] cur] pm]|] eqn:Hreq.
  2:{ rewrite !(handler_after_gates env _ req Hk Hs), Hreq. reflexivity. }
  destruct (String.eqb_spec status "success") as [->|H1].
  { rewrite !(success_branch env _ req txn ids amount cur pm Hk Hs Hreq).
    cbn [fst]. rewrite Hcasts. unfold Ticket_find_in.
    rewrite (find_in_length ids _ _ Hids).
    now rewrite (found_sum_ext ids _ _ 0%Z Hsame). }
  destruct (String.eqb_spec status "failed") as [->|H2].
  - rewrite !(failed_branch env _ req txn ids amount cur pm Hk Hs Hreq).
    rewrite Hcasts. destruct (forallb (casts env st) ids); reflexivity.
  - now rewrite !(other_branch env _ req txn status ids amount cur pm
                    Hk Hs Hreq H1 H2).
Qed.

Lemma updatedAt_keeps_ids_prices (ids : list ObjectId) (now : Date)
  (st : Store) :
  map (fun t => (t_id t, t_price t))
    (tickets (Ticket_updateMany ids (set_updatedAt now) st)) =
  map (fun t => (t_id t, t_price t)) (tickets st).
Proof.
  cbn [tickets Ticket_updateMany with_tickets]. rewrite map_map.
  apply map_ext. intros t. destruct (mem_id (t_id t) ids); reflexivity.
Qed.

(** The handler keeps no memory of a delivery: the answer to a delivery
    is the same whether or not any other delivery, of whatever status and
    for whatever tickets, was handled before it.  In particular, a
    delivery that is sent again is answered as it was the first time. *)
Theorem no_delivery_changes_a_later_answer (st : Store)
  (earlier later : Request) :
  fst (handlePaymentWebhook env
         (snd (handlePaymentWebhook env st earlier)) later) =
  fst (handlePaymentWebhook env st later).
Proof.
  destruct (webhook_store env st earlier) as (ids & ->).
  apply webhook_answer_ext, updatedAt_keeps_ids_prices.
Qed.

(** A delivery changes the store only when it is acknowledged, and then
    its status is success or failed: a rejected delivery and a delivery
    with any other status leave every collection as it was. *)
Theorem only_acknowledged_reports_write (st : Store) (req : Request) :
  snd (handlePaymentWebhook env st req) = st \/
  exists txn status ids amount cur pm,
    required_fields (body req) = Some (txn, status, ids, amount, cur, pm) /\
    (status = "success" \/ status = "failed") /\
    fst (handlePaymentWebhook env st req) = acknowledgement req txn ids.
Proof.
  destruct (webhook_cases env st req)
    as [(e & H & _)
       |[(txn & status & ids & amount & cur & pm & _ & _ & _ & H)
        |(txn & ids & amount & cur & pm & Hreq & _ & H)]]; rewrite H.
  - left. reflexivity.
  - left. reflexivity.
  - right. exists txn, "failed", ids, amount, cur, pm. auto.
Qed.

End WebhookMore.

(** ** Refunds: the first refund, a second one, and the route *)

Section RefundsMore.
Import refundController.

(** The validation of a refund entry passes exactly when the key and
    the reason are not empty. *)
Lemma refund_entry_passes (key reason : string) :
  key <> EmptyString -> reason <> EmptyString ->
  TicketModel.refund_entry_failures key reason = [].
Proof.
  intros Hk Hr. unfold TicketModel.refund_entry_failures.
  apply String.eqb_neq in Hk, Hr. now rewrite Hk, Hr.
Qed.

Lemma refund_entry_fails (key reason : string) :
  reason = EmptyString \/ key = EmptyString ->
  exists path paths,
    TicketModel.refund_entry_failures key reason = path :: paths.
Proof.
  unfold TicketModel.refund_entry_failures.
  destruct (String.eqb_spec key EmptyString) as [_|Hk].
  - intros _. simpl. eauto.
  - destruct (String.eqb_spec reason EmptyString) as [_|Hr].
    + intros _. simpl. eauto.
    + intros [H|H]; contradiction.
Qed.

(** The document a completed refund saves. *)
Lemma refund_completes (st : Store) (req : Request) (t : Ticket) :
  findExistingRefund st (ticketId req) (idempotencyKey req) = None ->
  Ticket_findById st (ticketId req) = Some t ->
  t_owner t = userId req -> t_isUsed t = false -> t_status t <> REFUNDED ->
  idempotencyKey req <> EmptyString -> reason req <> EmptyString ->
  processRefund st req =
  (Json 200 (RefundCompleted (t_price t) "SZL" (freshId req) (now req)),
   Ticket_save (now req)
     (set_refundHistory
        (t_refundHistory t ++
           [mkRefund (freshId req) (idempotencyKey req) (now req)
              (userId req) (t_price t) (reason req) COMPLETED])
        (set_status REFUNDED t)) st).
Proof.
  intros Hnone Hfind Hown Hused Hst Hkey Hreason.
  assert (Hk : existsb (has_key (idempotencyKey req)) (t_refundHistory t)
               = false).
  { destruct (find_some _ _ Hfind) as [Hin Hid].
    pose proof (find_none _ _ Hnone t Hin) as Hn. simpl in Hn.
    now rewrite Hid in Hn. }
  unfold processRefund. rewrite Hnone, Hfind. simpl.
  rewrite Hown, String.eqb_refl. simpl.
  unfold TicketModel.processRefund. rewrite Hused. simpl.
  rewrite (refund_entry_passes _ _ Hkey Hreason).
  destruct (t_status t) eqn:E; try congruence; simpl;
    rewrite find_app_last
      by (auto; unfold has_key; simpl; apply String.eqb_refl);
    reflexivity.
Qed.

(** Without a reason, or without a key, the entry is not saved. *)
Lemma refund_is_not_saved (st : Store) (req : Request) (t : Ticket) :
  findExistingRefund st (ticketId req) (idempotencyKey req) = None ->
  Ticket_findById st (ticketId req) = Some t ->
  t_owner t = userId req -> t_isUsed t = false -> t_status t <> REFUNDED ->
  reason req = EmptyString \/ idempotencyKey req = EmptyString ->
  exists paths, processRefund st req = (Next (ValidationError paths), st).
Proof.
  intros Hnone Hfind Hown Hused Hst Hempty.
  unfold processRefund. rewrite Hnone, Hfind. simpl.
  rewrite Hown, String.eqb_refl. simpl.
  unfold TicketModel.processRefund. rewrite Hused. simpl.
  destruct (refund_entry_fails _ _ Hempty) as (path & paths & ->).
  destruct (t_status t) eqn:E; try congruence; simpl; eauto.
Qed.

Lemma findById_after_save (st : Store) (now : Date) (t y : Ticket) :
  Ticket_findById st (t_id y) = Some t ->
  Ticket_findById (Ticket_save now y st) (t_id y)
  = Some (set_updatedAt now y).
Proof.
  unfold Ticket_findById, Ticket_save, Ticket_updateOne.
  cbn [tickets with_tickets]. intros Hf.
  induction (tickets st) as [|x l IH]; simpl in *; [discriminate|].
  destruct (has_id (t_id y) x) eqn:Hx; simpl.
  - unfold has_id. simpl. now rewrite String.eqb_refl.
  - rewrite Hx. auto.
Qed.

(** A refund asked by the owner of a ticket that is neither used nor
    REFUNDED, under a key no ticket of that id holds and with a reason,
    both not empty, is answered as completed for the full price; the
    stored ticket is then REFUNDED, its history is longer by one
    completed entry for the full price, made by the requester under the
    key, and its owner, usage flag, identity and other histories are as
    before.  Without a reason, or under an empty key, the validation of
    the save refuses the entry: the request ends in a ValidationError and
    nothing is stored. *)
Theorem first_refund_completes (st : Store) (req : Request) (t : Ticket) :
  findExistingRefund st (ticketId req) (idempotencyKey req) = None ->
  Ticket_findById st (ticketId req) = Some t ->
  t_owner t = userId req -> t_isUsed t = false -> t_status t <> REFUNDED ->
  let after := processRefund st req in
  (idempotencyKey req <> EmptyString -> reason req <> EmptyString ->
   fst after =
     Json 200 (RefundCompleted (t_price t) "SZL" (freshId req) (now req)) /\
   exists t',
     Ticket_findById (snd after) (ticketId req) = Some t' /\
     t_status t' = REFUNDED /\
     t_refundHistory t' =
       (t_refundHistory t ++
          [mkRefund (freshId req) (idempotencyKey req) (now req) (userId req)
             (t_price t) (reason req) COMPLETED])%list /\
     t_owner t' = t_owner t /\ t_isUsed t' = false /\
     identity t' = identity t /\
     t_transferHistory t' = t_transferHistory t /\
     t_validationHistory t' = t_validationHistory t) /\
  (reason req = EmptyString \/ idempotencyKey req = EmptyString ->
   exists paths, after = (Next (ValidationError paths), st)).
Proof.
  intros Hnone Hfind Hown Hused Hst after. unfold after.
  split; [|now apply refund_is_not_saved with t].
  intros Hkey Hreason.
  rewrite (refund_completes st req t Hnone Hfind Hown Hused Hst Hkey
             Hreason).
  cbn [fst snd]. split; [reflexivity|].
  destruct (find_some _ _ Hfind) as [_ Hid].
  unfold has_id in Hid. apply String.eqb_eq in Hid.
  eexists. split.
  - rewrite <- Hid.
    refine (findById_after_save st (now req) t
              (set_refundHistory _ (set_status REFUNDED t)) _).
    simpl. rewrite Hid. exact Hfind.
  - simpl. repeat split; auto.
Qed.

(** The lookup for another key still misses after the save. *)
Lemma other_key_still_missing (st : Store) (now : Date) (t y : Ticket)
  (key : string) :
  findExistingRefund st (t_id y) key = None ->
  Ticket_findById st (t_id y) = Some t ->
  existsb (has_key key) (t_refundHistory y) = false ->
  findExistingRefund (Ticket_save now y st) (t_id y) key = None.
Proof.
  unfold findExistingRefund, Ticket_findById, Ticket_save, Ticket_updateOne.
  cbn [tickets with_tickets]. intros Hn Hf Hy.
  induction (tickets st) as [|x l IH]; simpl in *; [reflexivity|].
  destruct (has_id (t_id y) x) eqn:Hx; simpl in *.
  - unfold has_id at 1. simpl. rewrite String.eqb_refl, Hy. simpl.
    destruct (existsb (has_key key) (t_refundHistory x)); [discriminate|].
    exact Hn.
  - rewrite Hx. simpl. auto.
Qed.

(** After a completed refund the status guard of the model answers the
    owner under any other key. *)
Lemma second_refund_gate (st st1 : Store) (req again : Request)
  (amount : Z) (cur : string) (rid : ObjectId) (at_ : Date) :
  processRefund st req = (Json 200 (RefundCompleted amount cur rid at_), st1) ->
  ticketId again = ticketId req -> userId again = userId req ->
  idempotencyKey again <> idempotencyKey req ->
  findExistingRefund st (ticketId req) (idempotencyKey again) = None ->
  processRefund st1 again =
  (Next (PlainError "Ticket already refunded"), st1).
Proof.
  intros H Hid Hu Hkey Hnone.
  destruct (completed_inv _ _ _ _ _ _ _ H)
    as (t & _ & Hfind & Hown & Hused & _ & Hst1 & _).
  cbv zeta in Hst1.
  destruct (find_some _ _ Hfind) as [Hin Hidt].
  unfold has_id in Hidt. apply String.eqb_eq in Hidt.
  set (saved := set_refundHistory _ (set_status REFUNDED t)) in Hst1.
  assert (Hk : existsb (has_key (idempotencyKey again)) (t_refundHistory t)
               = false).
  { pose proof (find_none _ _ Hnone t Hin) as Hn. simpl in Hn.
    unfold has_id in Hn. rewrite Hidt, String.eqb_refl in Hn. exact Hn. }
  assert (Hks : existsb (has_key (idempotencyKey again))
                  (t_refundHistory saved) = false).
  { unfold saved. simpl. rewrite existsb_app, Hk. simpl.
    unfold has_key. simpl. apply String.eqb_neq in Hkey.
    rewrite String.eqb_sym, Hkey. reflexivity. }
  assert (Hids : t_id saved = ticketId req) by exact Hidt.
  unfold processRefund. rewrite Hid, Hst1, <- Hids.
  rewrite (other_key_still_missing st (now req) t saved)
    by (rewrite ?Hids; assumption).
  rewrite (findById_after_save st (now req) t saved)
    by (rewrite Hids; assumption).
  simpl. rewrite Hu, Hown, String.eqb_refl. simpl.
  unfold TicketModel.processRefund. simpl. rewrite Hused. reflexivity.
Qed.

(** A ticket is refunded once: after a completed refund, a request of
    the owner for the same ticket under a key that the ticket does not
    hold is refused with the plain Error Ticket already refunded, and the
    store stays as the first refund left it. *)
Theorem second_refund_is_refused (st st1 : Store) (req again : Request)
  (amount : Z) (cur : string) (rid : ObjectId) (at_ : Date) :
  processRefund st req = (Json 200 (RefundCompleted amount cur rid at_), st1) ->
  ticketId again = ticketId req -> userId again = userId req ->
  idempotencyKey again <> idempotencyKey req ->
  findExistingRefund st (ticketId req) (idempotencyKey again) = None ->
  processRefund st1 again =
  (Next (PlainError "Ticket already refunded"), st1).
Proof.
  intros. eapply second_refund_gate; eassumption.
Qed.

(** Behind the middleware that generates a key when the header is
    missing, a retry without the header is not recognised: after a
    completed refund that was sent without the header, the same call sent
    again, for which another key is generated, is refused with Ticket
    already refunded instead of being answered with the stored outcome. *)
Theorem keyless_retry_is_not_recognised (st st1 : Store)
  (c c' : idempotency.RefundCall) (amount : Z) (cur : string)
  (rid : ObjectId) (at_ : Date) :
  idempotency.header c = None -> idempotency.header c' = None ->
  idempotency.refund_route_generated st c =
    (Json 200 (RefundCompleted amount cur rid at_), st1) ->
  idempotency.params_ticketId c' = idempotency.params_ticketId c ->
  idempotency.user_id c' = idempotency.user_id c ->
  idempotency.uuid c' <> idempotency.uuid c ->
  findExistingRefund st (idempotency.params_ticketId c) (idempotency.uuid c')
  = None ->
  idempotency.refund_route_generated st1 c' =
  (Next (PlainError "Ticket already refunded"), st1).
Proof.
  unfold idempotency.refund_route_generated, idempotency.generated.
  intros -> -> H Hid Hu Hkey Hnone.
  eapply second_refund_gate; simpl; eauto.
Qed.

(** Behind the middleware that insists on the header, a call whose
    header is missing or empty never reaches the controller: it is
    answered 400 and nothing is looked up or written, while a call with a
    header is served by the controller under exactly that key. *)
Lemma refund_route_requires_the_header (st : Store)
  (c : idempotency.RefundCall) :
  truthy_str (idempotency.header c) = false /\
  idempotency.refund_route_required st c =
    (Next (AppError "Idempotency-Key header required" 400 None), st)
  \/
  exists key,
    idempotency.header c = Some key /\ key <> EmptyString /\
    idempotency.refund_route_required st c =
    processRefund st (idempotency.to_request c key).
Proof.
  unfold idempotency.refund_route_required, idempotency.required, truthy_str.
  destruct (idempotency.header c) as [key|]; [|left; auto].
  destruct (String.eqb_spec key EmptyString) as [->|Hne]; simpl.
  - left. auto.
  - right. exists key. auto.
Qed.

End RefundsMore.

(** ** The error handler *)

Section ErrorsMore.
Import refundController.

Lemma status_of_4xx_5xx :
  forallb (fun c => errorHandler.AppError_status c =? "fail") (seq 400 100)
  && forallb (fun c => errorHandler.AppError_status c =? "error") (seq 500 100)
  = true.
Proof. vm_compute. reflexivity. Qed.

(** In production an [AppError] reaches the client with its own status
    code, message and error code, and is labelled fail for the codes 400
    to 499 and error for the codes 500 to 599. *)
Theorem app_errors_keep_their_code (m : string) (c : nat)
  (details : option string) :
  (400 <= c <= 499 ->
   errorHandler.production (AppError m c details) =
   errorHandler.mkReply c "fail" m details) /\
  (500 <= c <= 599 ->
   errorHandler.production (AppError m c details) =
   errorHandler.mkReply c "error" m details).
Proof.
  pose proof status_of_4xx_5xx as H. apply andb_true_iff in H as [H4 H5].
  rewrite forallb_forall in H4, H5.
  split; intros Hc; unfold errorHandler.production.
  - assert (Hin : In c (seq 400 100)) by (apply in_seq; lia).
    apply H4, String.eqb_eq in Hin. rewrite Hin.
    destruct c; [lia | reflexivity].
  - assert (Hin : In c (seq 500 100)) by (apply in_seq; lia).
    apply H5, String.eqb_eq in Hin. rewrite Hin.
    destruct c; [lia | reflexivity].
Qed.

(** In production the two guards of the model that refuse a refund are
    indistinguishable for the client: the owner who asks to refund a used
    or an already refunded ticket under a new key gets status 500 with
    the fixed text, not the reason, and the store is unchanged. *)
Theorem refused_refund_is_an_opaque_500 (st : Store) (req : Request)
  (t : Ticket) :
  findExistingRefund st (ticketId req) (idempotencyKey req) = None ->
  Ticket_findById st (ticketId req) = Some t ->
  t_owner t = userId req ->
  t_isUsed t = true \/ t_status t = REFUNDED ->
  exists e,
    processRefund st req = (Next e, st) /\
    errorHandler.production e =
    errorHandler.mkReply 500 "error" errorHandler.generic_message None.
Proof.
  intros Hnone Hfind Hown Hterm.
  unfold processRefund. rewrite Hnone, Hfind. simpl.
  rewrite Hown, String.eqb_refl. simpl.
  unfold TicketModel.processRefund.
  destruct (t_isUsed t) eqn:Hu; simpl.
  - eexists. split; reflexivity.
  - destruct Hterm as [Hx|Hs]; [discriminate|]. rewrite Hs. simpl.
    eexists. split; reflexivity.
Qed.

End ErrorsMore.

(** ** Reading and validating scan tokens *)

Section ScanMore.
Import ticketRoutes.
Variable env : Env.

Lemma index_0_cons (w : string) (c : ascii) (s : string) :
  index 0 w (String c s) =
  if prefix w (String c s) then Some 0
  else match index 0 w s with
       | Some n => Some (S n)
       | None => None
       end.
Proof. reflexivity. Qed.

Lemma prefix_of_longer (a b s : string) :
  prefix (a ++ b) s = true -> prefix a s = true.
Proof.
  revert s. induction a as [|c a IH]; intros [|d s]; simpl; auto.
  destruct (ascii_dec c d); [apply IH | discriminate].
Qed.

Lemma match_marker_includes (s m : string) :
  match_marker s = Some m -> includes "ESWATICKET" s = true.
Proof.
  unfold includes. induction s as [|c s IH]; intros H.
  - simpl in H. discriminate.
  - rewrite index_0_cons.
    destruct (prefix "ESWATICKET" (String c s)) eqn:Hp; [reflexivity|].
    cbn [match_marker] in H.
    destruct (match_here (String c s)) as [m'|] eqn:Hh.
    + unfold match_here in Hh.
      destruct (prefix marker (String c s)) eqn:Hm; [|discriminate].
      apply (prefix_of_longer "ESWATICKET" ":") in Hm. congruence.
    + specialize (IH H). destruct (index 0 "ESWATICKET" s); [reflexivity|].
      discriminate.
Qed.

(** The fallback of the scan parser is dead: a scanned text that does not
    contain the word ESWATICKET cannot match the expression either, so
    validate always answers it 400 Invalid QR code format and writes
    nothing. *)
Theorem text_without_marker_is_rejected (st : Store) (req : ValidateRequest) :
  includes "ESWATICKET" (vl_qrData req) = false ->
  validate env st req =
  (Next (AppError "Invalid QR code format" 400 None), st).
Proof.
  intros Hinc. unfold validate, validate_checks, qrPayload_of.
  rewrite Hinc.
  destruct (match_marker (vl_qrData req)) as [m|] eqn:Hm; [|reflexivity].
  apply match_marker_includes in Hm. congruence.
Qed.

Lemma no_E_app (a b : string) : no_E (a ++ b) = no_E a && no_E b.
Proof.
  induction a as [|c a IH]; simpl; [reflexivity|].
  now rewrite IH, andb_assoc.
Qed.

Lemma no_E_uint (d : Decimal.uint) : no_E (NilEmpty.string_of_uint d) = true.
Proof. induction d; simpl; auto. Qed.

Lemma no_E_show (n : N) : no_E (show n) = true.
Proof.
  unfold show, NilZero.string_of_uint.
  destruct (N.to_uint n); try reflexivity; apply (no_E_uint (_ _)).
Qed.

Lemma no_E_no_marker (s : string) : no_E s = true -> index 0 marker s = None.
Proof.
  induction s as [|c s IH]; simpl no_E; intros H; [reflexivity|].
  apply andb_true_iff in H as [Hc Hs].
  rewrite index_0_cons, (IH Hs).
  unfold marker. cbn [prefix].
  destruct (ascii_dec "E" c) as [<-|_]; [discriminate Hc | reflexivity].
Qed.

Lemma substring_all (s : string) : substring 0 (String.length s) s = s.
Proof. induction s as [|c s IH]; simpl; congruence. Qed.

Lemma prefix_app (a s : string) : prefix a (a ++ s) = true.
Proof.
  induction a as [|c a IH]; simpl; [destruct s; reflexivity|].
  destruct (ascii_dec c c); [exact IH | congruence].
Qed.

Lemma index_0_prefix (w s : string) :
  s <> EmptyString -> prefix w s = true -> index 0 w s = Some 0.
Proof.
  destruct s as [|c s]; [congruence|]. intros _ H.
  now rewrite index_0_cons, H.
Qed.

(** The parser returns what it is given when that is [marker] followed by
    a non-empty text without the marker. *)
Lemma qrPayload_of_marked (rest : string) :
  index 0 marker rest = None -> rest <> EmptyString ->
  qrPayload_of (marker ++ rest) = inr (marker ++ rest).
Proof.
  intros Hnone Hne. unfold qrPayload_of, includes, split_1.
  assert (Hd : drop (0 + String.length marker) (marker ++ rest) = rest).
  { unfold drop. simpl. rewrite Nat.sub_0_r. apply substring_all. }
  assert (Hm : index 0 marker (marker ++ rest) = Some 0)
    by (apply index_0_prefix; [discriminate | apply prefix_app]).
  assert (Hw : index 0 "ESWATICKET" (marker ++ rest) = Some 0).
  { apply index_0_prefix; [discriminate|].
    apply (prefix_of_longer "ESWATICKET" ":"). apply (prefix_app marker). }
  rewrite Hw, Hm, Hd, Hnone.
  destruct (String.eqb_spec rest EmptyString); [contradiction | reflexivity].
Qed.

Lemma issued_token_read (eventId ownerId : ObjectId) (now : Date) :
  no_E eventId = true -> no_E ownerId = true ->
  qrPayload_of (scan_token eventId ownerId now)
  = inr (scan_token eventId ownerId now).
Proof.
  intros He Hu. unfold scan_token.
  change ("ESWATICKET:" ++ eventId ++ ":" ++ ownerId ++ ":" ++ show now)
    with (marker ++ (eventId ++ ":" ++ ownerId ++ ":" ++ show now)).
  apply qrPayload_of_marked.
  - apply no_E_no_marker.
    rewrite !no_E_app, He, Hu, no_E_show. reflexivity.
  - destruct eventId; discriminate.
Qed.

(** Issuing and reading tokens round-trips: when the event id and the
    owner id contain no letter E, as the hexadecimal ids do, the scan
    parser returns the issued token unchanged. *)
Theorem issued_token_is_read_back (eventId ownerId : ObjectId) (now : Date) :
  no_E eventId = true -> no_E ownerId = true ->
  qrPayload_of (scan_token eventId ownerId now)
  = inr (scan_token eventId ownerId now).
Proof. apply issued_token_read. Qed.

End ScanMore.

(** ** Issuing tickets *)

Section IssuingMore.
Import ticketRoutes.
Variable env : Env.

(** What a successful purchase found and stored. *)
Lemma purchase_inv (st st' : Store) (req : PurchaseRequest) (t : Ticket) :
  purchase env st req = (Json 201 (TicketCreated t), st') ->
  exists ev tier,
    Event_findById st (pu_eventId req) = Some ev /\
    e_id ev = pu_eventId req /\
    pu_tier req = Some tier /\
    t = mkTicket (pu_freshId req) (e_id ev) (pu_userId req)
          (scan_token (e_id ev) (pu_userId req) (pu_now req))
          (QRCode_toDataURL env
             (scan_token (e_id ev) (pu_userId req) (pu_now req)))
          false (price_of tier) tier
          [mkTransfer (pu_userId req) (pu_userId req) (pu_now req)] []
          ACTIVE [] None None None (pu_now req) /\
    existsb (fun x => t_qrData x =? t_qrData t) (tickets st) = false /\
    st' = with_tickets (tickets st ++ [t]) st.
Proof.
  unfold purchase, run_try.
  destruct (Nat.ltb 1 (pu_quantity req)); simpl; [discriminate|].
  destruct (Event_findById st (pu_eventId req)) as [ev|] eqn:Hev; simpl;
    [|discriminate].
  unfold createSingleTicket, Ticket_insert.
  destruct (pu_tier req) as [tier|]; simpl; [|discriminate].
  destruct (existsb _ (tickets st)) eqn:Hex; simpl; [discriminate|].
  intros H. injection H as <- <-. exists ev, tier.
  destruct (find_some _ _ Hev) as [_ Hid]. apply String.eqb_eq in Hid.
  repeat split; auto.
Qed.

(** A purchase of one ticket of a given tier for an event that exists
    succeeds unless the very token is already stored; it looks neither
    at the capacity nor at the activity or date of the event.  It appends
    exactly one ticket: owned by the buyer, priced by its tier, ACTIVE,
    unused, without payment fields, with the issuance as its only
    transfer entry; it changes nothing else.  When the tier is left out,
    the ticket has no price, the validation of the save refuses it, and
    nothing is stored. *)
Theorem purchase_issues_one_ticket (st : Store) (req : PurchaseRequest)
  (ev : Event) :
  pu_quantity req <= 1 ->
  Event_findById st (pu_eventId req) = Some ev ->
  (forall tier,
     pu_tier req = Some tier ->
     (forall x, In x (tickets st) ->
        t_qrData x <> scan_token (e_id ev) (pu_userId req) (pu_now req)) ->
     exists t,
       purchase env st req =
         (Json 201 (TicketCreated t), with_tickets (tickets st ++ [t]) st) /\
       t_id t = pu_freshId req /\ t_event t = e_id ev /\
       t_owner t = pu_userId req /\
       t_qrData t = scan_token (e_id ev) (pu_userId req) (pu_now req) /\
       t_price t = price_of tier /\ t_tier t = tier /\
       t_status t = ACTIVE /\ t_isUsed t = false /\
       t_transactionId t = None /\ t_paymentStatus t = None /\
       t_transferHistory t =
         [mkTransfer (pu_userId req) (pu_userId req) (pu_now req)] /\
       t_validationHistory t = [] /\ t_refundHistory t = []) /\
  (pu_tier req = None ->
   purchase env st req = (Next (ValidationError ["price"]), st)).
Proof.
  intros Hq Hev. split.
  - intros tier Htier Hfresh. eexists. split.
    + unfold purchase, run_try.
      destruct (Nat.ltb_spec 1 (pu_quantity req)); [lia|].
      rewrite Hev. simpl.
      unfold createSingleTicket, Ticket_insert. rewrite Htier.
      cbn [option_map bind t_qrData].
      destruct (existsb _ (tickets st)) eqn:Hex; simpl; [|reflexivity].
      exfalso. apply existsb_exists in Hex as (x & Hx & Heq).
      apply String.eqb_eq in Heq. exact (Hfresh x Hx Heq).
    + repeat split.
  - intros Htier. unfold purchase, run_try.
    destruct (Nat.ltb_spec 1 (pu_quantity req)); [lia|].
    rewrite Hev. simpl. unfold createSingleTicket. rewrite Htier.
    reflexivity.
Qed.

(** The unique index on the scan token makes the clock part of the key:
    after a purchase, a second purchase by the same buyer for the same
    event at the same millisecond, of whatever tier, fails on the
    duplicate key and stores nothing.  (A second purchase that leaves the
    tier out stores nothing either: it fails on the missing price.) *)
Theorem same_instant_purchase_fails (st st' : Store)
  (req again : PurchaseRequest) (t : Ticket) :
  purchase env st req = (Json 201 (TicketCreated t), st') ->
  pu_userId again = pu_userId req -> pu_eventId again = pu_eventId req ->
  pu_now again = pu_now req -> pu_quantity again <= 1 ->
  purchase env st' again =
  (Next (match pu_tier again with
         | Some _ => DuplicateKeyError "qrData_unique"
         | None => ValidationError ["price"]
         end), st').
Proof.
  intros H Hu He Hn Hq.
  destruct (purchase_inv _ _ _ _ H)
    as (ev & tier & Hev & Hid & _ & Ht & _ & Hst').
  unfold purchase, run_try.
  destruct (Nat.ltb_spec 1 (pu_quantity again)); [lia|].
  assert (Hev' : Event_findById st' (pu_eventId again) = Some ev)
    by (rewrite Hst', He; exact Hev).
  rewrite Hev'. simpl. unfold createSingleTicket, Ticket_insert.
  destruct (pu_tier again) as [tier'|]; simpl; [|reflexivity].
  rewrite Hu, Hn.
  assert (Hex : existsb
                  (fun t' => t_qrData t' =?
                             scan_token (e_id ev) (pu_userId req) (pu_now req))
                  (tickets st') = true).
  { apply existsb_exists. exists t. split.
    - rewrite Hst'. simpl. apply in_or_app. right. now left.
    - rewrite Ht. simpl. apply String.eqb_refl. }
  rewrite Hex. reflexivity.
Qed.

End IssuingMore.

(** ** Batches and transfers *)

Section BatchMore.
Import ticketRoutes.
Variable env : Env.

Lemma batch_tiers_length (items : list (Tier * nat)) :
  length (batch_tiers items) = batch_size items.
Proof.
  unfold batch_tiers, batch_size.
  induction items as [|[tier q] items IH]; simpl; [reflexivity|].
  now rewrite length_app, repeat_length, IH.
Qed.

Lemma create_all_spec (req : BatchRequest) (eventId : ObjectId)
  (tiers : list Tier) (k : nat) (st st' : Store) (ts : list Ticket) :
  create_all env req eventId tiers k st = inr (ts, st') ->
  st' = with_tickets (tickets st ++ ts) st /\
  Forall2 (issued_to req eventId) tiers ts.
Proof.
  revert k st ts. induction tiers as [|tier tiers IH]; intros k st ts; simpl.
  - intros H. injection H as <- <-. split; [|constructor].
    rewrite app_nil_r. now destruct st.
  - unfold createSingleTicket at 1, Ticket_insert. cbn [t_qrData].
    destruct (existsb _ (tickets st)); simpl; [discriminate|].
    destruct (create_all env req eventId tiers (S k) _)
      as [e|[ts' st2]] eqn:Hr; simpl; [discriminate|].
    intros H. injection H as <- <-.
    destruct (IH _ _ _ Hr) as (-> & Hall). split.
    + simpl. now rewrite <- app_assoc.
    + constructor; [repeat split | exact Hall].
Qed.


(** A batch needs the clock to advance: when it asks for two tickets or
    more and the first two are created in the same millisecond, the
    second token repeats the first, the batch fails on the duplicate key
    and no ticket is stored. *)
Theorem stalled_clock_fails_the_batch (st : Store) (req : BatchRequest)
  (ev : Event) :
  Event_findById st (ba_eventId req) = Some ev ->
  2 <= batch_size (ba_tickets req) ->
  ba_clock req 0 = ba_clock req 1 ->
  batch_purchase env st req = (Next (DuplicateKeyError "qrData_unique"), st).
Proof.
  intros Hev Hsize Hclock. unfold batch_purchase, run_session.
  rewrite Hev. simpl. rewrite <- batch_tiers_length in Hsize.
  destruct (batch_tiers (ba_tickets req)) as [|t1 [|t2 rest]];
    simpl in Hsize; try lia.
  cbn [create_all]. unfold createSingleTicket at 1, Ticket_insert.
  cbn [t_qrData].
  destruct (existsb _ (tickets st)); simpl; [reflexivity|].
  unfold createSingleTicket at 1, Ticket_insert. cbn [t_qrData tickets
    with_tickets]. rewrite <- Hclock, existsb_app. simpl.
  rewrite String.eqb_refl. rewrite orb_true_r. reflexivity.
Qed.

(** The transfer of the earlier routes checks who asks and who receives,
    and nothing about the ticket: whenever the owner names a registered
    recipient it succeeds, also on a used or refunded ticket, and the
    stored ticket then has the recipient as owner and one more history
    entry, with its usage flag, status and scan token as before. *)
Theorem transfer_ignores_the_ticket_state (st : Store) (req : TransferRequest)
  (t : Ticket) (u : User) :
  tf_email req <> EmptyString ->
  Ticket_findById st (tf_ticketId req) = Some t ->
  t_owner t = tf_userId req ->
  User_findByEmail st (tf_email req) = Some u ->
  let after := transfer_plain env st req in
  fst after =
    Json 200
      (TransferDone ("Ticket transferred to " ++ u_email u)
         (QRCode_toDataURL env (scan_token (t_event t) (u_id u) (tf_now req)))
         None) /\
  exists t',
    Ticket_findById (snd after) (tf_ticketId req) = Some t' /\
    t_owner t' = u_id u /\
    t_transferHistory t' =
      (t_transferHistory t ++
         [mkTransfer (tf_userId req) (u_id u) (tf_now req)])%list /\
    t_isUsed t' = t_isUsed t /\ t_status t' = t_status t /\
    t_qrData t' = t_qrData t.
Proof.
  intros He Hf Ho Hu after.
  unfold after, transfer_plain, transfer_with, run_try.
  apply String.eqb_neq in He.
  rewrite He, (findById_cast_found env st _ t Hf). simpl.
  rewrite Ho, String.eqb_refl, Hu. simpl. split; [reflexivity|].
  destruct (find_some _ _ Hf) as [_ Hid].
  unfold has_id in Hid. apply String.eqb_eq in Hid.
  eexists. split.
  - rewrite <- Hid.
    refine (findById_after_save st (tf_now req) t
              (fst (reassign env req t u)) _).
    simpl. rewrite Hid. exact Hf.
  - repeat split.
Qed.


(** The transfer method of the model refuses whoever is not the owner
    and refuses a used ticket; otherwise it stores the ticket with the new
    owner, the status TRANSFERRED and one more history entry from the old
    owner to the new one, after which the old owner is refused. *)
Theorem model_transfer_hands_over (st : Store) (now later : Date)
  (this : Ticket) (newOwnerId currentUserId next : ObjectId) :
  (t_owner this <> currentUserId ->
   TicketModel.transferTicket now this newOwnerId currentUserId st =
   inl (PlainError "You do not own this ticket")) /\
  (t_owner this = currentUserId -> t_isUsed this = true ->
   TicketModel.transferTicket now this newOwnerId currentUserId st =
   inl (PlainError "Cannot transfer used ticket")) /\
  (t_owner this = currentUserId -> t_isUsed this = false ->
   Ticket_findById st (t_id this) = Some this ->
   exists t' st',
     TicketModel.transferTicket now this newOwnerId currentUserId st =
     inr (t', st') /\
     Ticket_findById st' (t_id this) = Some t' /\
     t_owner t' = newOwnerId /\ t_status t' = TRANSFERRED /\
     t_transferHistory t' =
       (t_transferHistory this ++
          [mkTransfer currentUserId newOwnerId now])%list /\
     (newOwnerId <> currentUserId ->
      TicketModel.transferTicket later t' next currentUserId st' =
      inl (PlainError "You do not own this ticket"))).
Proof.
  unfold TicketModel.transferTicket. repeat split.
  - intros Hne. apply String.eqb_neq in Hne. now rewrite Hne.
  - intros Ho Hu. now rewrite Ho, String.eqb_refl, Hu.
  - intros Ho Hu Hf. rewrite Ho, String.eqb_refl, Hu. simpl.
    eexists. eexists. split; [reflexivity|]. split.
    + refine (findById_after_save st now this
                (set_status TRANSFERRED
                   (set_owner newOwnerId (set_transferHistory _ this))) _).
      exact Hf.
    + simpl. repeat split.
      intros Hne. apply String.eqb_neq in Hne. now rewrite Hne.
Qed.

(** The tickets of a batch are new tickets, appended. *)
Lemma batch_is_all_or_nothing_cases (st : Store) (req : BatchRequest) :
  (exists e, batch_purchase env st req = (Next e, st)) \/
  (exists ts,
     (forall t, In t ts ->
        exists now fresh eventId userId tier,
          t = mkTicket fresh eventId userId (scan_token eventId userId now)
                (QRCode_toDataURL env (scan_token eventId userId now)) false
                (price_of tier) tier [mkTransfer userId userId now] [] ACTIVE
                [] None None None now) /\
     batch_purchase env st req =
       (Json 201 (BatchCreated (length ts) ts),
        with_tickets (tickets st ++ ts) st)).
Proof.
  unfold batch_purchase, run_session.
  destruct (Event_findById st (ba_eventId req)) as [ev|]; simpl;
    [|left; eauto].
  destruct (create_all env req (e_id ev) (batch_tiers (ba_tickets req)) 0 st)
    as [e|[ts st']] eqn:Hc; simpl; [left; eauto|].
  right. exists ts.
  destruct (create_all_spec _ _ _ _ _ _ _ Hc) as (-> & _). split; [|auto].
  clear - Hc. revert Hc. generalize 0 st (with_tickets (tickets st ++ ts) st).
  revert ts. induction (batch_tiers (ba_tickets req)) as [|tier tiers IH];
    intros ts k s s'; simpl.
  - intros H. injection H as <- _. intros t [].
  - unfold createSingleTicket at 1, Ticket_insert. cbn [t_qrData].
    destruct (existsb _ (tickets s)); simpl; [discriminate|].
    destruct (create_all env req (e_id ev) tiers (S k) _)
      as [e|[ts' s2]] eqn:Hr; simpl; [discriminate|].
    intros H. injection H as <- _. intros t [<-|Hin].
    + repeat eexists.
    + eapply IH; eauto.
Qed.

End BatchMore.

(** ** Validation composed with the other routes *)

Section ValidateMore.
Import ticketRoutes.
Variable env : Env.

(** Saving over the ticket that a query selected keeps it selected, when
    ids are unique and the saved document still satisfies the query. *)
Lemma find_after_save (p : Ticket -> bool) (l : list Ticket) (t y : Ticket) :
  NoDup (map t_id l) -> find p l = Some t -> p y = true ->
  find p (update_first (has_id (t_id t)) (fun _ => y) l) = Some y.
Proof.
  induction l as [|x l IH]; simpl; intros Hnd Hf Hy; [discriminate|].
  inversion Hnd as [|? ? Hnotin Hnd']; subst.
  destruct (has_id (t_id t) x) eqn:Hx; simpl.
  - now rewrite Hy.
  - destruct (p x) eqn:Hpx.
    + injection Hf as ->. unfold has_id in Hx.
      rewrite String.eqb_refl in Hx. discriminate.
    + auto.
Qed.

Lemma validate_checks_inv (st : Store) (req : ValidateRequest) (t : Ticket) :
  validate_checks env st req = inr t ->
  exists payload,
    qrPayload_of (vl_qrData req) = inr payload /\
    Ticket_findByScan env st payload = Some t /\ t_isUsed t = false.
Proof.
  unfold validate_checks.
  destruct (qrPayload_of (vl_qrData req)) as [e|payload]; simpl;
    [discriminate|].
  destruct (Ticket_findByScan env st payload) as [t'|] eqn:Hf; simpl;
    [|discriminate].
  destruct (t_isUsed t') eqn:Hu; simpl; [discriminate|].
  intros H. injection H as <-. exists payload. auto.
Qed.

(** A ticket is admitted once: with unique ticket ids, after validate
    answered 200 for a scanned text, the same text scanned again, by
    anyone and at any time, is answered 400 Ticket already used and
    nothing is written. *)
Theorem second_scan_is_refused (st st' : Store) (req again : ValidateRequest)
  (p : Payload) :
  validate env st req = (Json 200 p, st') ->
  NoDup (map t_id (tickets st)) ->
  vl_qrData again = vl_qrData req ->
  validate env st' again =
  (Next (AppError "Ticket already used" 400 None), st').
Proof.
  intros H Hnd Hq.
  destruct (validate_effect env st req) as [(e & He)|(t & Hc & _ & Hst)].
  { rewrite He in H. discriminate. }
  rewrite H in Hst. simpl in Hst.
  destruct (validate_checks_inv _ _ _ Hc) as (payload & Hp & Hf & _).
  unfold validate, validate_checks. rewrite Hq, Hp. simpl.
  assert (Hf' : Ticket_findByScan env st' payload =
                Some (set_updatedAt (vl_now req) (mark_used req t))).
  { rewrite Hst. unfold Ticket_findByScan, Ticket_save, Ticket_updateOne.
    cbn [tickets with_tickets].
    change (t_id (mark_used req t)) with (t_id t).
    apply find_after_save; auto.
    destruct (find_some _ _ Hf) as [_ Hpt]. exact Hpt. }
  rewrite Hf'. reflexivity.
Qed.

(** A purchased ticket is admitted with its token: when the ids contain
    no letter E, the buyer is a stored user and no stored QR image matches
    the token as an expression, validate finds the ticket that the
    purchase created by the token the purchase returned, answers 200 with
    the event and the buyer's email, and saves that ticket as used. *)
Theorem purchased_ticket_is_admitted (st st' : Store) (req : PurchaseRequest)
  (t : Ticket) (buyer : User) (scan : ValidateRequest) :
  purchase env st req = (Json 201 (TicketCreated t), st') ->
  no_E (pu_eventId req) = true -> no_E (pu_userId req) = true ->
  User_findById st (pu_userId req) = Some buyer ->
  (forall x, In x (tickets st') ->
             regex_test env (t_qrData t) (t_qrCode x) = false) ->
  vl_qrData scan = t_qrData t ->
  exists ev,
    Event_findById st (pu_eventId req) = Some ev /\
    validate env st' scan =
    (Json 200
       (ValidateOk (e_id ev) (e_name ev) (e_date ev) (e_location ev)
          (u_email buyer) (vl_now scan)),
     Ticket_save (vl_now scan) (mark_used scan t) st').
Proof.
  intros H Hne Hnu Hbuyer Hregex Hscan.
  destruct (purchase_inv env _ _ _ _ H)
    as (ev & tier & Hev & Hid & _ & Ht & Hex & Hst').
  exists ev. split; [assumption|].
  assert (Hfind : Ticket_findByScan env st' (t_qrData t) = Some t).
  { unfold Ticket_findByScan. rewrite Hst'. cbn [tickets with_tickets].
    assert (Hold : forall x, In x (tickets st) ->
              (t_qrData x =? t_qrData t) ||
              regex_test env (t_qrData t) (t_qrCode x) = false).
    { intros x Hx. rewrite Hregex
        by (rewrite Hst'; simpl; apply in_or_app; auto).
      rewrite orb_false_r.
      destruct (t_qrData x =? t_qrData t) eqn:E; [|reflexivity].
      assert (existsb (fun x => t_qrData x =? t_qrData t) (tickets st) = true)
        by (apply existsb_exists; eauto).
      congruence. }
    clear - Hold. induction (tickets st) as [|x l IH]; simpl.
    - now rewrite String.eqb_refl.
    - rewrite Hold by (now left). apply IH. intros y Hy. apply Hold.
      now right. }
  assert (Hp : qrPayload_of (vl_qrData scan) = inr (t_qrData t)).
  { rewrite Hscan, Ht. cbn [t_qrData].
    apply issued_token_read.
    - now rewrite Hid.
    - assumption. }
  unfold validate, validate_checks. rewrite Hp. simpl. rewrite Hfind. simpl.
  assert (Hu : t_isUsed t = false) by (rewrite Ht; reflexivity).
  rewrite Hu. simpl.
  assert (He : Event_findById st' (t_event t) = Some ev).
  { rewrite Hst'. simpl. rewrite Ht. simpl. rewrite Hid. exact Hev. }
  assert (Ho : User_findById st' (t_owner t) = Some buyer).
  { rewrite Hst'. simpl. rewrite Ht. simpl. exact Hbuyer. }
  change (t_event (mark_used scan t)) with (t_event t).
  change (t_owner (mark_used scan t)) with (t_owner t).
  rewrite He, Ho. reflexivity.
Qed.

End ValidateMore.

(** ** What every route keeps *)

Section Invariants.
Import ticketRoutes.
Variable env : Env.

Lemma Forall_update_first {A} (P : A -> Prop) (p : A -> bool) (f : A -> A)
  (l : list A) :
  Forall P l -> (forall x, In x l -> p x = true -> P (f x)) ->
  Forall P (update_first p f l).
Proof.
  induction l as [|x l IH]; simpl; intros Hl Hf; [constructor|].
  inversion Hl as [|? ? Hx Hl']; subst.
  destruct (p x) eqn:Hp; constructor; auto.
Qed.

Lemma Forall_save (P : Ticket -> Prop) (now : Date) (y : Ticket)
  (st : Store) :
  Forall P (tickets st) -> P (set_updatedAt now y) ->
  Forall P (tickets (Ticket_save now y st)).
Proof.
  intros Hl Hy. unfold Ticket_save, Ticket_updateOne. simpl.
  apply Forall_update_first; auto.
Qed.

(** What a refund does to the store: nothing, or the save of a ticket it
    found by id, unused and not yet REFUNDED, owned by the requester. *)
Lemma refund_effect (st : Store) (req : refundController.Request) :
  snd (refundController.processRefund st req) = st \/
  exists t,
    Ticket_findById st (refundController.ticketId req) = Some t /\
    t_owner t = refundController.userId req /\
    t_isUsed t = false /\ t_status t <> REFUNDED /\
    snd (refundController.processRefund st req) =
    Ticket_save (refundController.now req)
      (set_refundHistory
         (t_refundHistory t ++
            [mkRefund (refundController.freshId req)
               (refundController.idempotencyKey req)
               (refundController.now req) (refundController.userId req)
               (t_price t) (refundController.reason req) COMPLETED])
         (set_status REFUNDED t)) st.
Proof.
  unfold refundController.processRefund, run_try.
  destruct (refundController.findExistingRefund _ _ _) as [t0|].
  { destruct (find _ (t_refundHistory t0)); simpl; auto. }
  destruct (Ticket_findById st _) as [t|] eqn:Hf; simpl; [|auto].
  destruct (String.eqb_spec (t_owner t) (refundController.userId req))
    as [Ho|_]; simpl; [|auto].
  unfold TicketModel.processRefund.
  destruct (t_isUsed t) eqn:Hu; simpl; [auto|].
  destruct (TicketModel.refund_entry_failures _ _) eqn:Hval.
  2:{ left. destruct (t_status t); reflexivity. }
  destruct (t_status t) eqn:Hs; simpl; auto;
    right; exists t; rewrite ?Hs;
    repeat split; try assumption; try discriminate;
    match goal with
    | |- context [find ?p ?l] => destruct (find p l)
    end; reflexivity.
Qed.

(** The session-based transfer leaves the store as it was. *)
Lemma transfer_effect (st : Store) (req : TransferRequest) :
  snd (transfer env st req) = st.
Proof.
  unfold transfer, transfer_with, Ticket_findById_cast.
  destruct (casts env st (tf_ticketId req)); simpl; [|reflexivity].
  destruct (Ticket_findById st (tf_ticketId req)); reflexivity.
Qed.

(** What a purchase does to the store: nothing, or it appends the ticket
    it issued. *)
Lemma purchase_effect (st : Store) (req : PurchaseRequest) :
  snd (purchase env st req) = st \/
  exists now fresh eventId userId tier,
    snd (purchase env st req) =
    with_tickets
      (tickets st ++
         [mkTicket fresh eventId userId (scan_token eventId userId now)
            (QRCode_toDataURL env (scan_token eventId userId now)) false
            (price_of tier) tier [mkTransfer userId userId now] [] ACTIVE
            [] None None None now]) st.
Proof.
  unfold purchase, run_try.
  destruct (Nat.ltb 1 (pu_quantity req)); simpl; [auto|].
  destruct (Event_findById st (pu_eventId req)) as [ev|]; simpl; [|auto].
  unfold createSingleTicket, Ticket_insert.
  destruct (pu_tier req) as [tier|]; simpl; [|auto].
  destruct (existsb _ (tickets st)); simpl; [auto|].
  right. exists (pu_now req), (pu_freshId req), (e_id ev), (pu_userId req),
    tier. reflexivity.
Qed.

(** A property of tickets that holds for a new ticket and is kept by each
    of the writes of the routes holds in the store after any request
    when it held before. *)
Lemma routes_preserve (P : Ticket -> Prop) :
  (forall now fresh eventId userId tier,
     P (mkTicket fresh eventId userId (scan_token eventId userId now)
          (QRCode_toDataURL env (scan_token eventId userId now)) false
          (price_of tier) tier [mkTransfer userId userId now] [] ACTIVE []
          None None None now)) ->
  (forall req t u, P t -> t_owner t = tf_userId req ->
     P (set_updatedAt (tf_now req) (fst (reassign env req t u)))) ->
  (forall req t, P t -> t_isUsed t = false ->
     P (set_updatedAt (vl_now req) (mark_used req t))) ->
  (forall now entry t, P t -> t_isUsed t = false -> t_status t <> REFUNDED ->
     rf_amount entry = t_price t -> rf_status entry = COMPLETED ->
     P (set_updatedAt now
          (set_refundHistory (t_refundHistory t ++ [entry])
             (set_status REFUNDED t)))) ->
  (forall now t, P t -> P (set_updatedAt now t)) ->
  forall st c,
    Forall P (tickets st) -> Forall P (tickets (snd (serve env st c))).
Proof.
  intros Hnew Htransfer Hvalidate Hrefund Hstamp st c Hst.
  destruct c as [req|req|req|req|req|req|req]; simpl.
  - (* purchase *)
    destruct (purchase_effect st req)
      as [->|(now & fresh & eventId & userId & tier & ->)]; [assumption|].
    cbn [tickets with_tickets].
    apply Forall_app. split; [assumption|]. constructor; auto.
  - (* batch purchase *)
    destruct (batch_is_all_or_nothing_cases env st req)
      as [(e & ->)|(ts & Hts & ->)]; simpl; [assumption|].
    apply Forall_app. split; [assumption|].
    apply Forall_forall. intros t Ht.
    destruct (Hts t Ht) as (now & fresh & eventId & userId & tier & ->).
    apply Hnew.
  - (* the session-based transfer *)
    now rewrite transfer_effect.
  - (* the earlier transfer *)
    destruct (transfer_plain_effect env st req)
      as [(e & ->)|(t & u & Hf & Ho & _ & ->)]; cbn [snd]; [assumption|].
    apply Forall_save; [assumption|].
    apply (Htransfer req t u); [|assumption].
    eapply Forall_forall; [exact Hst|]. now apply (find_some _ _ Hf).
  - (* validate *)
    destruct (validate_effect env st req)
      as [(e & ->)|(t & Hc & Hu & ->)]; cbn [snd]; [assumption|].
    apply Forall_save; [assumption|].
    apply (Hvalidate req t); [|assumption].
    destruct (validate_checks_inv env _ _ _ Hc) as (payload & _ & Hf & _).
    eapply Forall_forall; [exact Hst|]. now apply (find_some _ _ Hf).
  - (* refund *)
    destruct (refund_effect st req) as [->|(t & Hf & _ & Hu & Hs & ->)];
      [assumption|].
    apply Forall_save; [assumption|].
    apply Hrefund; auto.
    eapply Forall_forall; [exact Hst|]. now apply (find_some _ _ Hf).
  - (* webhook *)
    destruct (webhook_store env st req) as (ids & ->).
    cbn [tickets Ticket_updateMany with_tickets].
    apply Forall_forall. intros x Hx.
    apply in_map_iff in Hx as (y & <- & Hy).
    assert (P y) by (eapply Forall_forall; eauto).
    destruct (mem_id (t_id y) ids); auto.
Qed.

Lemma serve_all_preserve (P : Ticket -> Prop) :
  (forall st c,
     Forall P (tickets st) -> Forall P (tickets (snd (serve env st c)))) ->
  forall cs st,
    Forall P (tickets st) -> Forall P (tickets (serve_all env st cs)).
Proof.
  intros Hstep cs. induction cs as [|c cs IH]; intros st Hst; simpl; auto.
Qed.

Lemma follow_app (holder : ObjectId) (h : list TransferEntry)
  (e : TransferEntry) :
  follow holder (h ++ [e]) =
  match follow holder h with
  | Some x => if tr_from e =? x then Some (tr_to e) else None
  | None => None
  end.
Proof.
  revert holder. induction h as [|e0 h IH]; intros holder; simpl.
  - reflexivity.
  - destruct (tr_from e0 =? holder); [apply IH | reflexivity].
Qed.

(** Chain of custody: through any sequence of requests to the routes,
    the transfer history of every ticket stays a chain that begins with
    the issuance, the entry from the first holder to themself, in which
    each entry starts at the holder the previous one ended with, and
    that ends at the current owner. *)
Theorem custody_chain_is_kept (st : Store) (cs : list Call) :
  Forall custody_chain (tickets st) ->
  Forall custody_chain (tickets (serve_all env st cs)).
Proof.
  revert st. apply serve_all_preserve. apply routes_preserve.
  - intros now fresh eventId userId tier. unfold custody_chain. simpl.
    now rewrite String.eqb_refl.
  - intros req t u Ht Ho. unfold custody_chain in *. simpl.
    destruct (t_transferHistory t) as [|e0 h]; [contradiction|].
    destruct Ht as [Hself Ht]. split; [exact Hself|].
    change ((e0 :: h) ++ [mkTransfer (tf_userId req) (u_id u) (tf_now req)])%list
      with (e0 :: (h ++ [mkTransfer (tf_userId req) (u_id u) (tf_now req)]))%list.
    cbn [follow] in *. destruct (tr_from e0 =? tr_from e0); [|discriminate].
    rewrite follow_app, Ht. simpl. now rewrite Ho, String.eqb_refl.
  - intros req t Ht _. exact Ht.
  - intros now entry t Ht _ _ _ _. exact Ht.
  - intros now t Ht. exact Ht.
Qed.

(** Admitted at most once: through any sequence of requests, the usage
    flag of every ticket says whether it was validated, and a validated
    ticket holds exactly one validation entry. *)
Theorem validated_once_is_kept (st : Store) (cs : list Call) :
  Forall validated_once (tickets st) ->
  Forall validated_once (tickets (serve_all env st cs)).
Proof.
  revert st. apply serve_all_preserve. apply routes_preserve.
  - intros. reflexivity.
  - intros req t u Ht _. exact Ht.
  - intros req t Ht Hu. unfold validated_once in *. rewrite Hu in Ht.
    simpl. rewrite Ht. simpl. eauto.
  - intros now entry t Ht _ _ _ _. exact Ht.
  - intros now t Ht. exact Ht.
Qed.

(** Refunded at most once: through any sequence of requests, every
    ticket holds at most one refund entry, and a ticket that holds one is
    REFUNDED and the entry is a completed refund of the ticket's price. *)
Theorem refunded_once_is_kept (st : Store) (cs : list Call) :
  Forall refunded_once (tickets st) ->
  Forall refunded_once (tickets (serve_all env st cs)).
Proof.
  revert st. apply serve_all_preserve. apply routes_preserve.
  - intros. exact I.
  - intros req t u Ht _. exact Ht.
  - intros req t Ht _. exact Ht.
  - intros now entry t Ht _ Hs Ha Hc. unfold refunded_once in *. simpl.
    destruct (t_refundHistory t) as [|r [|r' h]]; simpl.
    + auto.
    + destruct Ht as [Ht _]. contradiction.
    + contradiction.
  - intros now t Ht. exact Ht.
Qed.

(** With unique ids, saving a document over the stored one it was
    loaded from keeps the identities of the collection. *)
Lemma save_keeps_identities (now : Date) (t y : Ticket) (st : Store) :
  NoDup (map t_id (tickets st)) -> In t (tickets st) ->
  identity y = identity t ->
  map identity (tickets (Ticket_save now y st)) = map identity (tickets st).
Proof.
  intros Hnd Hin Hy. unfold Ticket_save, Ticket_updateOne. simpl.
  assert (Hid : t_id y = t_id t) by (unfold identity in Hy; congruence).
  rewrite Hid. clear Hid.
  induction (tickets st) as [|x l IH]; simpl; [reflexivity|].
  inversion Hnd as [|? ? Hnotin Hnd']; subst.
  destruct (has_id (t_id t) x) eqn:Hx; simpl.
  - f_equal. unfold has_id in Hx. apply String.eqb_eq in Hx.
    destruct Hin as [->|Hin]; [exact Hy|].
    exfalso. apply Hnotin. rewrite Hx. now apply in_map.
  - f_equal. destruct Hin as [->|Hin].
    + unfold has_id in Hx. rewrite String.eqb_refl in Hx. discriminate.
    + auto.
Qed.

(** No route deletes or re-labels a ticket: with unique ticket ids, after
    any request the store holds the same tickets in the same order, each
    with the id, event, scan token, price and tier it had, followed by
    the tickets the request issued. *)
Theorem tickets_are_kept_and_keep_their_identity (st : Store) (c : Call) :
  NoDup (map t_id (tickets st)) ->
  exists issued,
    map identity (tickets (snd (serve env st c))) =
    (map identity (tickets st) ++ map identity issued)%list.
Proof.
  intros Hnd.
  assert (Hsame : forall s, map identity (tickets s) = map identity (tickets st)
            -> exists issued, map identity (tickets s) =
               (map identity (tickets st) ++ map identity issued)%list).
  { intros s Hs. exists []. simpl. now rewrite app_nil_r. }
  destruct c as [req|req|req|req|req|req|req]; simpl.
  - destruct (purchase_effect st req)
      as [->|(now & fresh & eventId & userId & tier & ->)];
      [now apply Hsame|].
    cbn [tickets with_tickets]. eexists [_]. now rewrite map_app.
  - destruct (batch_is_all_or_nothing_cases env st req)
      as [(e & ->)|(ts & _ & ->)]; simpl; [now apply Hsame|].
    exists ts. now rewrite map_app.
  - rewrite transfer_effect. now apply Hsame.
  - destruct (transfer_plain_effect env st req)
      as [(e & ->)|(t & u & Hf & _ & _ & ->)]; cbn [snd]; [now apply Hsame|].
    apply Hsame. apply save_keeps_identities with (t := t); auto.
    now apply (find_some _ _ Hf).
  - destruct (validate_effect env st req)
      as [(e & ->)|(t & Hc & _ & ->)]; cbn [snd]; [now apply Hsame|].
    destruct (validate_checks_inv env _ _ _ Hc) as (payload & _ & Hf & _).
    apply Hsame. apply save_keeps_identities with (t := t); auto.
    now apply (find_some _ _ Hf).
  - destruct (refund_effect st req) as [->|(t & Hf & _ & _ & _ & ->)];
      [now apply Hsame|].
    apply Hsame. apply save_keeps_identities with (t := t); auto.
    now apply (find_some _ _ Hf).
  - apply Hsame. destruct (webhook_store env st req) as (ids & ->).
    cbn [tickets Ticket_updateMany with_tickets].
    rewrite map_map. apply map_ext. intros x.
    destruct (mem_id (t_id x) ids); reflexivity.
Qed.

(** The routes write tickets only, but for the payment webhook: no
    request changes a user, and a request other than a payment report
    changes neither an event nor the payment records. *)
Theorem only_payment_reports_touch_events (st : Store) (c : Call) :
  users (snd (serve env st c)) = users st /\
  ((forall req, c <> Webhook req) ->
   events (snd (serve env st c)) = events st /\
   payments (snd (serve env st c)) = payments st).
Proof.
  destruct c as [req|req|req|req|req|req|req]; simpl.
  - destruct (purchase_effect st req)
      as [->|(now & fresh & eventId & userId & tier & ->)]; auto.
  - destruct (batch_is_all_or_nothing_cases env st req)
      as [(e & ->)|(ts & _ & ->)]; simpl; auto.
  - rewrite transfer_effect. auto.
  - destruct (transfer_plain_effect env st req)
      as [(e & ->)|(t & u & _ & _ & _ & ->)]; cbn [snd]; auto.
  - destruct (validate_effect env st req)
      as [(e & ->)|(t & _ & _ & ->)]; cbn [snd]; auto.
  - destruct (refund_effect st req) as [->|(t & _ & _ & _ & _ & ->)]; auto.
  - split; [|intros H; exfalso; exact (H req eq_refl)].
    apply webhook_events.
Qed.

End Invariants.

(** ** The further properties on the sample deployment *)

Section MoreExamples.
Import Sample MoreSamples ticketRoutes.

Lemma sample_ids_distinct : NoDup (map t_id (tickets store)).
Proof. simpl. repeat constructor; simpl; intuition discriminate. Defined.

(** A report of the amount 0 counts as a report without amount. *)
Lemma falsy_required_field_witness :
  paymentWebhooks.handlePaymentWebhook env store pay_nothing =
  (Next (AppError "Missing required fields in webhook payload" 400
           (Some "MISSING_REQUIRED_FIELDS")), store).
Proof.
  apply (falsy_required_field_is_rejected env store pay_nothing);
    try reflexivity.
  right. right. right. right. right. left. reflexivity.
Defined.




(** The first refund of t1, with a reason and without one. *)
Lemma first_refund_witness :
  (let after := refundController.processRefund store refund_t1 in
   fst after = Json 200 (RefundCompleted 200 "SZL" "r9" 9000) /\
   exists t',
     Ticket_findById (snd after) "t1" = Some t' /\
     t_status t' = REFUNDED /\
     t_refundHistory t' =
       [mkRefund "r9" "k7" 9000 "u1" 200 "rain" COMPLETED] /\
     t_owner t' = "u1" /\ t_isUsed t' = false /\
     identity t' = identity t1 /\
     t_transferHistory t' = t_transferHistory t1 /\
     t_validationHistory t' = t_validationHistory t1) /\
  exists paths,
    refundController.processRefund store refund_t1_no_reason =
    (Next (ValidationError paths), store).
Proof.
  assert (Hs : t_status t1 <> REFUNDED) by discriminate.
  split.
  - apply (proj1 (first_refund_completes store refund_t1 t1 eq_refl eq_refl
                    eq_refl eq_refl Hs)); discriminate.
  - apply (proj2 (first_refund_completes store refund_t1_no_reason t1 eq_refl
                    eq_refl eq_refl eq_refl Hs)).
    left. reflexivity.
Defined.

(** The refund of t1 asked again under the key k8. *)
Lemma second_refund_witness :
  let st1 := snd (refundController.processRefund store refund_t1) in
  refundController.processRefund st1 refund_t1_other_key =
  (Next (PlainError "Ticket already refunded"), st1).
Proof.
  intros st1.
  apply (second_refund_is_refused store st1 refund_t1 refund_t1_other_key
           200%Z "SZL" "r9" 9000%N);
    try (vm_compute; reflexivity).
  intro H. discriminate H.
Defined.

(** The refund of t1 sent twice without the header. *)
Lemma keyless_retry_witness :
  let st1 := snd (idempotency.refund_route_generated store keyless_call) in
  idempotency.refund_route_generated st1 keyless_retry =
  (Next (PlainError "Ticket already refunded"), st1).
Proof.
  intros st1.
  apply (keyless_retry_is_not_recognised store st1 keyless_call keyless_retry
           200%Z "SZL" "r9" 9000%N);
    try (vm_compute; reflexivity).
  intro H. discriminate H.
Defined.

(** The codes 404 and 500. *)
Lemma app_errors_witness :
  errorHandler.production (AppError "Ticket not found" 404 None) =
    errorHandler.mkReply 404 "fail" "Ticket not found" None /\
  errorHandler.production (AppError "Down" 500 None) =
    errorHandler.mkReply 500 "error" "Down" None.
Proof.
  split.
  - apply (proj1 (app_errors_keep_their_code "Ticket not found" 404 None)).
    lia.
  - apply (proj2 (app_errors_keep_their_code "Down" 500 None)). lia.
Defined.

(** alice asks to refund the used ticket t3. *)
Lemma refused_refund_witness :
  exists e,
    refundController.processRefund store refund_t3 = (Next e, store) /\
    errorHandler.production e =
    errorHandler.mkReply 500 "error" errorHandler.generic_message None.
Proof.
  apply (refused_refund_is_an_opaque_500 store refund_t3 t3);
    try reflexivity. left. reflexivity.
Defined.

(** The gate scans the text hello. *)
Lemma text_without_marker_witness :
  validate env store scan_junk =
  (Next (AppError "Invalid QR code format" 400 None), store).
Proof.
  apply (text_without_marker_is_rejected env store scan_junk). reflexivity.
Defined.

(** The token of t1. *)
Lemma issued_token_witness :
  qrPayload_of (scan_token "e1" "u1" 1000) = inr "ESWATICKET:e1:u1:1000".
Proof.
  apply (issued_token_is_read_back "e1" "u1" 1000%N); reflexivity.
Defined.

(** The gate scans t1 twice. *)
Lemma second_scan_witness :
  let st' := snd (validate env store scan_t1) in
  validate env st' scan_t1 =
  (Next (AppError "Ticket already used" 400 None), st').
Proof.
  intros st'.
  apply (second_scan_is_refused env store st' scan_t1 scan_t1
           (ValidateOk "e1" "MTN Bushfire" 1900000000000 "Malkerns"
              "alice@example.com" 9000)).
  - vm_compute. reflexivity.
  - exact sample_ids_distinct.
  - reflexivity.
Defined.

(** bob buys a General ticket, and a ticket without a tier. *)
Lemma purchase_witness :
  (exists t,
     purchase env store buy_general =
       (Json 201 (TicketCreated t), with_tickets (tickets store ++ [t]) store)
     /\ t_id t = "t9" /\ t_event t = "e1" /\ t_owner t = "u2" /\
     t_qrData t = "ESWATICKET:e1:u2:8000" /\
     t_price t = 200%Z /\ t_tier t = General /\
     t_status t = ACTIVE /\ t_isUsed t = false /\
     t_transactionId t = None /\ t_paymentStatus t = None /\
     t_transferHistory t = [mkTransfer "u2" "u2" 8000] /\
     t_validationHistory t = [] /\ t_refundHistory t = []) /\
  purchase env store buy_without_tier =
  (Next (ValidationError ["price"]), store).
Proof.
  assert (Hq : pu_quantity buy_general <= 1) by (simpl; lia).
  assert (Hq' : pu_quantity buy_without_tier <= 1) by (simpl; lia).
  split.
  - apply (proj1 (purchase_issues_one_ticket env store buy_general concert Hq
                    eq_refl) General eq_refl).
    intros x Hx. simpl in Hx.
    destruct Hx as [<-|[<-|[<-|[<-|[]]]]]; intro H; vm_compute in H;
      discriminate H.
  - exact (proj2 (purchase_issues_one_ticket env store buy_without_tier
                    concert Hq' eq_refl) eq_refl).
Defined.

(** The ticket bob bought is admitted at the gate. *)
Lemma purchased_ticket_witness :
  exists ev,
    Event_findById store "e1" = Some ev /\
    validate env (snd (purchase env store buy_general)) scan_t9 =
    (Json 200
       (ValidateOk (e_id ev) (e_name ev) (e_date ev) (e_location ev)
          "bob@example.com" 9000),
     Ticket_save 9000
       (mark_used scan_t9
          (mkTicket "t9" "e1" "u2" "ESWATICKET:e1:u2:8000"
             "data:image/png;base64,iVBORw0KGgo" false 200 General
             [mkTransfer "u2" "u2" 8000] [] ACTIVE [] None None None 8000))
       (snd (purchase env store buy_general))).
Proof.
  apply (purchased_ticket_is_admitted env store
           (snd (purchase env store buy_general)) buy_general
           (mkTicket "t9" "e1" "u2" "ESWATICKET:e1:u2:8000"
              "data:image/png;base64,iVBORw0KGgo" false 200 General
              [mkTransfer "u2" "u2" 8000] [] ACTIVE [] None None None 8000)
           bob scan_t9); try (vm_compute; reflexivity).
  intros x Hx. vm_compute in Hx.
  destruct Hx as [<-|[<-|[<-|[<-|[<-|[]]]]]]; vm_compute; reflexivity.
Defined.

(** bob buys a VIP ticket in the same millisecond. *)
Lemma same_instant_witness :
  let st' := snd (purchase env store buy_general) in
  purchase env st' buy_vip_same_instant =
  (Next (DuplicateKeyError "qrData_unique"), st').
Proof.
  intros st'.
  apply (same_instant_purchase_fails env store st' buy_general
           buy_vip_same_instant
           (mkTicket "t9" "e1" "u2" "ESWATICKET:e1:u2:8000"
              "data:image/png;base64,iVBORw0KGgo" false 200 General
              [mkTransfer "u2" "u2" 8000] [] ACTIVE [] None None None 8000));
    vm_compute; reflexivity.
Defined.

(** bob orders two tickets while the clock stands still. *)
Lemma stalled_clock_witness :
  batch_purchase env store batch_stalled =
  (Next (DuplicateKeyError "qrData_unique"), store).
Proof.
  apply (stalled_clock_fails_the_batch env store batch_stalled concert);
    reflexivity.
Defined.

(** alice tries to give away t1, a ticket under an ObjectId that is not
    stored, and a ticket under a string that is no ObjectId. *)
Example session_transfer_outcomes :
  transfer env store give_t1 =
    (Next (ReferenceError "req is not defined"), store) /\
  transfer env store give_unknown =
    (Next (AppError "Ticket not found" 404 None), store) /\
  transfer env store give_junk = (Next (CastError "_id"), store).
Proof. repeat split. Qed.

(** alice gives away the used ticket t3. *)
Lemma transfer_of_used_ticket_witness :
  t_isUsed t3 = true /\
  let after := transfer_plain env store give_t3 in
  fst after =
    Json 200
      (TransferDone "Ticket transferred to bob@example.com"
         "data:image/png;base64,iVBORw0KGgo" None) /\
  exists t',
    Ticket_findById (snd after) "t3" = Some t' /\
    t_owner t' = "u2" /\
    t_transferHistory t' =
      [mkTransfer "u1" "u1" 3000; mkTransfer "u1" "u2" 7000] /\
    t_isUsed t' = true /\ t_status t' = ACTIVE /\
    t_qrData t' = "ESWATICKET:e1:u1:3000".
Proof.
  split; [reflexivity|].
  apply (transfer_ignores_the_ticket_state env store give_t3 t3 bob);
    try reflexivity. intro H. discriminate H.
Defined.

Lemma sample_custody : Forall custody_chain (tickets store).
Proof. repeat constructor. Defined.

Lemma sample_validated_once : Forall validated_once (tickets store).
Proof.
  repeat constructor; try reflexivity. unfold validated_once. simpl. eauto.
Defined.

Lemma sample_refunded_once : Forall refunded_once (tickets store).
Proof. repeat constructor; simpl; auto. Defined.

(** The chain of custody after a day at the box office. *)
Lemma custody_chain_witness :
  Forall custody_chain (tickets (serve_all env store day)).
Proof. exact (custody_chain_is_kept env store day sample_custody). Defined.

(** One validation per used ticket after the same day. *)
Lemma validated_once_witness :
  Forall validated_once (tickets (serve_all env store day)).
Proof.
  exact (validated_once_is_kept env store day sample_validated_once).
Defined.

(** One refund per refunded ticket after the same day. *)
Lemma refunded_once_witness :
  Forall refunded_once (tickets (serve_all env store day)).
Proof.
  exact (refunded_once_is_kept env store day sample_refunded_once).
Defined.

(** The gate scans t1: the four tickets are those there were. *)
Lemma identity_witness :
  exists issued,
    map identity (tickets (snd (serve env store (Validate scan_t1)))) =
    (map identity (tickets store) ++ map identity issued)%list.
Proof.
  exact (tickets_are_kept_and_keep_their_identity env store
           (Validate scan_t1) sample_ids_distinct).
Defined.

(** The gate scans t1: events and payments are untouched. *)
Lemma only_payment_reports_witness :
  events (snd (serve env store (Validate scan_t1))) = events store /\
  payments (snd (serve env store (Validate scan_t1))) = payments store.
Proof.
  apply (proj2 (only_payment_reports_touch_events env store
                  (Validate scan_t1))).
  intros req H. discriminate H.
Defined.

(** alice hands t1 to bob through the method of the model and then tries
    again. *)
Lemma model_transfer_witness :
  exists t' st',
    TicketModel.transferTicket 7000 t1 "u2" "u1" store = inr (t', st') /\
    Ticket_findById st' "t1" = Some t' /\
    t_owner t' = "u2" /\ t_status t' = TRANSFERRED /\
    t_transferHistory t' =
      [mkTransfer "u1" "u1" 1000; mkTransfer "u1" "u2" 7000] /\
    ("u2" <> "u1" ->
     TicketModel.transferTicket 7500 t' "u3" "u1" st' =
     inl (PlainError "You do not own this ticket")).
Proof.
  apply (proj2 (proj2 (model_transfer_hands_over store 7000 7500 t1 "u2" "u1"
                         "u3"))); reflexivity.
Defined.

End MoreExamples.

(** ** The earlier webhook controller *)

Section EarlierWebhook.
Import paymentWebhooks.
Variable env : Env.

(** The earlier controller on a success report that passes its checks. *)
Lemma earlier_success_branch (st : Store) (req : Request) (txn : string)
  (ids : list ObjectId) :
  truthy_str (idempotency_key req) = true ->
  earlierWebhooks.signature_rejected env req = false ->
  earlierWebhooks.required_fields (body req) = Some (txn, "success", ids) ->
  earlierWebhooks.handlePaymentWebhook env st req =
  if forallb (casts env st) ids
  then (earlierWebhooks.Acknowledged (now req),
        Ticket_updateMany ids (set_updatedAt (now req)) st)
  else (earlierWebhooks.Passed (CastError "_id"), st).
Proof.
  intros Hk Hs Hreq.
  unfold earlierWebhooks.handlePaymentWebhook, Ticket_updateMany_cast.
  rewrite Hk, Hs, Hreq. simpl.
  destruct (forallb (casts env st) ids); reflexivity.
Qed.

(** What stays of a ticket when its [updatedAt] is set. *)
Lemma stamped_twice (now later : Date) (t : Ticket) :
  set_updatedAt (t_updatedAt t) (set_updatedAt later (set_updatedAt now t)) = t
  /\ set_updatedAt (t_updatedAt t) (set_updatedAt now t) = t
  /\ set_updatedAt (t_updatedAt t) t = t.
Proof. destruct t. repeat split. Qed.


(** The earlier controller has no exactly-once gate: after an
    acknowledged success report, a second success report that passes the
    checks, for the same tickets or for others, is acknowledged as well,
    and after both every stored ticket is what it was at the start, but
    for its [updatedAt]: nothing tells a reported ticket from one that
    was never reported. *)
Theorem earlier_redelivery_is_acknowledged (st : Store)
  (first second : Request) (txn txn' : string) (ids ids' : list ObjectId) :
  truthy_str (idempotency_key first) = true ->
  earlierWebhooks.signature_rejected env first = false ->
  earlierWebhooks.required_fields (body first) = Some (txn, "success", ids) ->
  forallb (casts env st) ids = true ->
  truthy_str (idempotency_key second) = true ->
  earlierWebhooks.signature_rejected env second = false ->
  earlierWebhooks.required_fields (body second) =
    Some (txn', "success", ids') ->
  forallb (casts env st) ids' = true ->
  let before := earlierWebhooks.handlePaymentWebhook env st first in
  let after := earlierWebhooks.handlePaymentWebhook env (snd before) second in
  fst before = earlierWebhooks.Acknowledged (now first) /\
  fst after = earlierWebhooks.Acknowledged (now second) /\
  Forall2 (fun t t' => set_updatedAt (t_updatedAt t) t' = t)
    (tickets st) (tickets (snd after)).
Proof.
  intros Hk Hs Hreq Hc Hk' Hs' Hreq' Hc' before after.
  unfold after, before.
  rewrite (earlier_success_branch st first txn ids Hk Hs Hreq), Hc.
  cbn [fst snd]. split; [reflexivity|].
  rewrite (earlier_success_branch _ second txn' ids' Hk' Hs' Hreq').
  assert (Hids : map t_id
                   (tickets (Ticket_updateMany ids (set_updatedAt (now first))
                               st)) = map t_id (tickets st)).
  { cbn [tickets Ticket_updateMany with_tickets]. rewrite map_map.
    apply map_ext. intros t. destruct (mem_id (t_id t) ids); reflexivity. }
  assert (Hc2 : forallb
                  (casts env
                     (Ticket_updateMany ids (set_updatedAt (now first)) st))
                  ids' = true).
  { rewrite <- Hc'. now apply forallb_casts_ext. }
  rewrite Hc2. cbn [fst snd]. split; [reflexivity|].
  cbn [tickets Ticket_updateMany with_tickets]. rewrite map_map.
  clear. induction (tickets st) as [|t l IH]; simpl; constructor;
    [|exact IH].
  destruct (stamped_twice (now first) (now second) t) as (H2 & H1 & H0).
  destruct (mem_id (t_id t) ids); simpl.
  - destruct (mem_id (t_id t) ids'); [exact H2 | exact H1].
  - destruct (mem_id (t_id t) ids').
    + destruct (stamped_twice (now second) (now second) t) as (_ & H & _).
      exact H.
    + exact H0.
Qed.

End EarlierWebhook.

Section EarlierExamples.
Import Sample MoreSamples.


(** The second report for t1, under another transaction id. *)
Lemma earlier_redelivery_witness :
  let before :=
    earlierWebhooks.handlePaymentWebhook env store earlier_pay_t1 in
  let after :=
    earlierWebhooks.handlePaymentWebhook env (snd before)
      earlier_pay_t1_again in
  fst before = earlierWebhooks.Acknowledged 5000 /\
  fst after = earlierWebhooks.Acknowledged 5200 /\
  Forall2 (fun t t' => set_updatedAt (t_updatedAt t) t' = t)
    (tickets store) (tickets (snd after)).
Proof.
  exact (earlier_redelivery_is_acknowledged env store earlier_pay_t1
           earlier_pay_t1_again "txn_123" "txn_999" ["t1"; unknown_id]
           ["t1"] eq_refl eq_refl eq_refl eq_refl eq_refl eq_refl eq_refl
           eq_refl).
Defined.

End EarlierExamples.
